(** * Resampler of the condition-monitoring repository

    Shallow embedding of [src/util/file_operations.py], class [Resampler]:
    the two resampling strategies ([resample_data_bearing] and
    [resample_data_kbm]), their dispatcher [resample_data], and the numpy and
    pandas operations they are built from ([numpy.array_split],
    [DataFrame.iloc], [DataFrame.abs], [DataFrame.mean], [ndarray.reshape],
    [DataFrame.to_csv], [os.scandir], [os.path.exists], [os.remove]).
    Of the class [DataCleanerKBM] the function behind the column [time_sec]
    and the method [add_label_kbm] are embedded as well.

    Conventions of the embedding.
    - Python integers are [Z]; lengths are [nat].
    - Samples are exact rationals ([Q]); the rounding of IEEE doubles is not
      modelled.  [None] in a summary row stands for NaN, the mean pandas
      gives for an empty column.
    - The file system is a finite map from paths to nodes (a regular file
      with its text, or a directory with its entries in the order
      [os.scandir] enumerates them).
    - Python exceptions are values of [exn]; a method is a function from the
      file system to the file system it leaves behind and either the raised
      exception or the returned value.
    - [numpy], [pandas] and [os] are libraries, modelled from their
      documented behaviour; the text side of pandas (parsing a table,
      printing a number) is the parameter [PandasIO], and a frame holds
      numbers only.
    - The output table [<data_path>_<n>.csv] lies next to the directory
      [<data_path>], so writing it does not change what [os.scandir]
      enumerates.
    - The progress bar written to standard output is left out. *)

From Stdlib Require Import ZArith QArith Qabs Lia Ascii.
From stdpp Require Import gmap strings list pretty.

Local Open Scope Z_scope.
Local Open Scope nat_scope.

(** ** Exceptions *)

Inductive exn : Set :=
  | AssertionError
  | ValueError
  | ZeroDivisionError
  | OSError
  | ParserError.

(** ** numpy.array_split on a sequence (scalar [indices_or_sections]) *)

Module np.

(** [section_sizes = [0] + extras * [Neach_section+1]
                         + (Nsections-extras) * [Neach_section]] *)
Definition section_sizes (Ntotal Nsections : nat) : list nat :=
  let Neach_section := Ntotal / Nsections in
  let extras := Ntotal mod Nsections in
  0 :: repeat (Neach_section + 1) extras
       ++ repeat Neach_section (Nsections - extras).

Fixpoint cumsum_from (acc : nat) (xs : list nat) : list nat :=
  match xs with
  | [] => []
  | x :: xs' => (acc + x) :: cumsum_from (acc + x) xs'
  end.

Definition cumsum : list nat -> list nat := cumsum_from 0.

(** [sary[st:end]] for non-negative bounds. *)
Definition slice {A} (st end_ : nat) (sary : list A) : list A :=
  take (end_ - st) (drop st sary).

(** [int(indices_or_sections)] has been taken by the caller; a number of
    sections that is not positive raises [ValueError]. *)
Definition array_split {A} (ary : list A) (indices_or_sections : Z)
  : exn + list (list A) :=
  let Ntotal := length ary in
  let Nsections := indices_or_sections in
  if (Nsections <=? 0)%Z then inl ValueError
  else
    let div_points := cumsum (section_sizes Ntotal (Z.to_nat Nsections)) in
    inr (map (fun i => slice (nth i div_points 0) (nth (S i) div_points 0) ary)
             (seq 0 (Z.to_nat Nsections))).

(** [a.reshape(1, k)] of a one-dimensional array: the size must be [k],
    or [k] is the wildcard [-1]. *)
Definition reshape_row {A} (a : list A) (k : Z) : exn + list A :=
  if (k =? -1)%Z || (k =? Z.of_nat (length a))%Z then inr a
  else inl ValueError.

End np.

(** ** Python sequence slicing [xs[:stop]] *)

Definition slice_to {A} (stop : Z) (xs : list A) : list A :=
  if (stop <? 0)%Z
  then take (Z.to_nat (Z.max 0 (Z.of_nat (length xs) + stop))) xs
  else take (Z.to_nat stop) xs.

(** ** pandas.DataFrame with numeric cells *)

Record DataFrame : Type := mkDataFrame {
  columns : nat;
  rows : list (list Q)
}.


Module pd.

Definition len (df : DataFrame) : nat := length (rows df).

(** [df.iloc[:stop]] *)
Definition iloc_to (stop : Z) (df : DataFrame) : DataFrame :=
  mkDataFrame (columns df) (slice_to stop (rows df)).

(** [np.array_split(df, n)]: the split runs along the rows. *)
Definition array_split (df : DataFrame) (n : Z) : exn + list DataFrame :=
  match np.array_split (rows df) n with
  | inl e => inl e
  | inr parts => inr (map (mkDataFrame (columns df)) parts)
  end.

(** [df.abs()] *)
Definition abs (df : DataFrame) : DataFrame :=
  mkDataFrame (columns df) (map (map Qabs) (rows df)).

Definition column (df : DataFrame) (j : nat) : list Q :=
  map (fun r => nth j r 0%Q) (rows df).

Definition sum (xs : list Q) : Q := foldr Qplus 0%Q xs.

(** Mean of one column; NaN on an empty column. *)
Definition series_mean (xs : list Q) : option Q :=
  match xs with
  | [] => None
  | _ :: _ => Some (sum xs / inject_Z (Z.of_nat (length xs)))%Q
  end.

(** [df.mean()]: one value per column. *)
Definition mean (df : DataFrame) : list (option Q) :=
  map (fun j => series_mean (column df j)) (seq 0 (columns df)).

End pd.

(** ** The file system and the monad of methods *)

Inductive node : Type :=
  | File (text : string)
  | Dir (entries : list string).

(** A method takes the file system and leaves a file system together with
    the exception it raised or the value it returned. *)
Definition M (A : Type) : Type := gmap string node -> gmap string node * (exn + A).

Definition ret {A} (a : A) : M A := fun w => (w, inr a).

Definition raise {A} (e : exn) : M A := fun w => (w, inl e).

Definition bind {A B} (c : M A) (k : A -> M B) : M B :=
  fun w =>
    match c w with
    | (w', inl e) => (w', inl e)
    | (w', inr a) => k a w'
    end.

Notation "x <~ c ;; k" := (bind c (fun x => k))
  (at level 100, c at next level, right associativity).
Notation "c ;;; k" := (bind c (fun _ => k))
  (at level 100, right associativity).

Definition lift {A} (r : exn + A) : M A :=
  match r with
  | inl e => raise e
  | inr a => ret a
  end.

(** [for x in xs: body(x)] *)
Fixpoint for_ {A} (xs : list A) (body : A -> M unit) : M unit :=
  match xs with
  | [] => ret tt
  | x :: xs' => body x ;;; for_ xs' body
  end.

(** [assert b] *)
Definition assert_ (b : bool) : M unit :=
  if b then ret tt else raise AssertionError.

Module os.

Definition path_exists (path : string) : M bool :=
  fun w => (w, inr (bool_decide (is_Some (w !! path)))).

(** [os.remove] deletes a regular file and raises on anything else. *)
Definition remove (path : string) : M unit :=
  fun w =>
    match w !! path with
    | Some (File _) => (delete path w, inr tt)
    | _ => (w, inl OSError)
    end.

(** The names of the entries of a directory, in enumeration order. *)
Definition scandir (path : string) : M (list string) :=
  fun w =>
    match w !! path with
    | Some (Dir entries) => (w, inr entries)
    | _ => (w, inl OSError)
    end.

End os.

(** What pandas does with text is a parameter of the model: the parser
    behind [pd.read_csv] (separator, whether the first line is a header,
    text) and the rendering of one number by [to_csv]. *)
Class PandasIO : Type := {
  parse_csv : ascii -> bool -> string -> option DataFrame;
  float_repr : Q -> string
}.

Section Resampling.

Context `{PandasIO}.

(** [pd.read_csv(path, sep=sep, header=...)] *)
Definition read_csv (path : string) (sep : ascii) (header : bool) : M DataFrame :=
  fun w =>
    match w !! path with
    | Some (File text) =>
        match parse_csv sep header text with
        | Some df => (w, inr df)
        | None => (w, inl ParserError)
        end
    | _ => (w, inl OSError)
    end.

Definition tab : ascii := "009"%char.
Definition comma : ascii := ","%char.
Definition newline : string := String (ascii_of_nat 10) EmptyString.

Definition csv_field (x : option Q) : string :=
  match x with
  | Some q => float_repr q
  | None => ""
  end.

(** One line of [to_csv(..., index=False, header=False, sep=';')]. *)
Definition csv_line (row : list (option Q)) : string :=
  String.concat ";" (map csv_field row) +:+ newline.

(** [frame.to_csv(path, mode='a', index=False, header=False, sep=';')] for
    a frame of one row. *)
Definition to_csv (row : list (option Q)) (path : string) : M unit :=
  fun w =>
    match w !! path with
    | Some (Dir _) => (w, inl OSError)
    | Some (File text) => (<[path := File (text +:+ csv_line row)]> w, inr tt)
    | None => (<[path := File (csv_line row)]> w, inr tt)
    end.

(** ** class Resampler *)

Inductive Dataset : Set := kbm | bearing.

Record Resampler : Type := mkResampler {
  data_path : string;
  dataset : Dataset;
  num_features : Z
}.

(** ["kbm" in data_path] *)
Fixpoint str_in (needle hay : string) : bool :=
  String.prefix needle hay
  || match hay with
     | EmptyString => false
     | String _ hay' => str_in needle hay'
     end.

Definition __init__ (data_path : string) (num_features : Z) : Resampler :=
  mkResampler data_path
              (if str_in "kbm" data_path then kbm else bearing)
              num_features.

(** [f"{self.data_path}_{resample_size}.csv"] *)
Definition resampled_path (self : Resampler) (resample_size : Z) : string :=
  data_path self +:+ "_" +:+ pretty resample_size +:+ ".csv".

Definition resample_data_bearing (self : Resampler) (resample_size : Z) : M unit :=
  entries <~ os.scandir (data_path self) ;;
  for_ entries (fun file_name =>
    df <~ read_csv (data_path self +:+ "/" +:+ file_name) tab false ;;
    dfs <~ lift (pd.array_split df resample_size) ;;
    for_ dfs (fun df_chunk =>
      mean_abs <~ lift (np.reshape_row (pd.mean (pd.abs df_chunk)) 4) ;;
      to_csv mean_abs (resampled_path self resample_size))).

(** [len(df) % sampling_rate] *)
Definition py_mod (a b : Z) : exn + Z :=
  if (b =? 0)%Z then inl ZeroDivisionError else inr (a mod b)%Z.

(** [sampling_rate] is the keyword parameter, 4000 when left out.  The
    number of sections is [int(len(df) / 4000)]: the quotient is not
    negative, so truncation is the integer quotient. *)
Definition resample_data_kbm (self : Resampler) (resample_size : Z)
           (sampling_rate : Z) : M unit :=
  assert_ (negb (resample_size =? sampling_rate)%Z) ;;;
  let save_path := resampled_path self resample_size in
  present <~ os.path_exists save_path ;;
  (if present then os.remove save_path else ret tt) ;;;
  df <~ read_csv (data_path self +:+ "_4000.csv") comma true ;;
  r <~ lift (py_mod (Z.of_nat (pd.len df)) sampling_rate) ;;
  let df := pd.iloc_to (- r) df in
  list_df_measurements <~
    lift (pd.array_split df (Z.quot (Z.of_nat (pd.len df)) 4000)) ;;
  for_ list_df_measurements (fun df_measurement =>
    dfs <~ lift (pd.array_split df_measurement resample_size) ;;
    for_ dfs (fun df_chunk =>
      mean_abs <~ lift (np.reshape_row (pd.mean (pd.abs df_chunk))
                                       (num_features self)) ;;
      to_csv mean_abs save_path)).

Definition resample_data (self : Resampler) (resample_size : Z) : M unit :=
  present <~ os.path_exists (resampled_path self resample_size) ;;
  (if present then os.remove (resampled_path self resample_size) else ret tt) ;;;
  match dataset self with
  | kbm => resample_data_kbm self resample_size 4000
  | bearing => resample_data_bearing self resample_size
  end.

(** [resample_default]: the five default sizes, in turn. *)
Definition resample_default (self : Resampler) : M unit :=
  for_ [10; 30; 100; 300; 1000]%Z (fun resample_size =>
    resample_data self resample_size).

End Resampling.

(** ** Definitions used to state the properties *)

(** Consecutive pieces of the given sizes. *)
Fixpoint chunks {A} (sizes : list nat) (l : list A) : list (list A) :=
  match sizes with
  | [] => []
  | s :: sizes' => take s l :: chunks sizes' (drop s l)
  end.

(** The windows [np.array_split(df, n)] returns, none when it raises. *)
Definition windows (df : DataFrame) (n : Z) : list DataFrame :=
  match pd.array_split df n with
  | inl _ => []
  | inr dfs => dfs
  end.

(** The summary rows of one recording, window by window. *)
Definition summary_rows (df : DataFrame) (n : Z) : list (list (option Q)) :=
  map (fun df_chunk => pd.mean (pd.abs df_chunk)) (windows df n).



(** Whether [reshape(1, k)] accepts the mean of a frame. *)
Definition width_ok (df : DataFrame) (k : Z) : bool :=
  (k =? -1)%Z || (k =? Z.of_nat (columns df))%Z.

(** Lines 74 and 75 of the source: the truncation and the split into
    measurements. *)
Definition kbm_truncate (df : DataFrame) (sampling_rate : Z) : exn + DataFrame :=
  match py_mod (Z.of_nat (pd.len df)) sampling_rate with
  | inl e => inl e
  | inr r => inr (pd.iloc_to (- r) df)
  end.

Definition kbm_measurements (df : DataFrame) (sampling_rate : Z)
  : exn + list DataFrame :=
  match kbm_truncate df sampling_rate with
  | inl e => inl e
  | inr df' => pd.array_split df' (Z.quot (Z.of_nat (pd.len df')) 4000)
  end.

(** The text of a regular file, empty when there is none. *)
Definition file_text (w : gmap string node) (path : string) : string :=
  match w !! path with
  | Some (File text) => text
  | _ => ""
  end.

Definition is_dir (w : gmap string node) (path : string) : Prop :=
  exists entries, w !! path = Some (Dir entries).

(** Appending text to a file in mode ['a']. *)
Definition append_text (path text : string) (w : gmap string node)
  : gmap string node :=
  <[path := File (file_text w path +:+ text)]> w.

Definition append_lines (path : string) (lines : list string)
           (w : gmap string node) : gmap string node :=
  foldl (fun w line => append_text path line w) w lines.

(** ** A small instance to run the model on examples

    Tables of decimal integers, one line per row; a number is rendered as
    an integer followed by [.0], or as a fraction in lowest terms.  It
    stands in for pandas in the examples only. *)

Module plain.

Fixpoint split_on (sep : ascii) (cur : list ascii) (s : list ascii)
  : list (list ascii) :=
  match s with
  | [] => [rev cur]
  | c :: s' =>
      if Ascii.eqb c sep then rev cur :: split_on sep [] s'
      else split_on sep (c :: cur) s'
  end.

Definition digit (c : ascii) : option Z :=
  let n := nat_of_ascii c in
  if (48 <=? n) && (n <=? 57) then Some (Z.of_nat (n - 48)) else None.

Fixpoint number_from (acc : Z) (cs : list ascii) : option Z :=
  match cs with
  | [] => Some acc
  | c :: cs' =>
      match digit c with
      | Some d => number_from (10 * acc + d)%Z cs'
      | None => None
      end
  end.

Definition number (cs : list ascii) : option Z :=
  match cs with
  | [] => None
  | c :: cs' =>
      if Ascii.eqb c "-"%char
      then match cs' with [] => None | _ => Z.opp <$> number_from 0 cs' end
      else number_from 0 cs
  end.

Definition nonempty_lines (text : string) : list (list ascii) :=
  List.filter (fun l => negb (Nat.eqb (length l) 0))
              (split_on (ascii_of_nat 10) [] (String.list_ascii_of_string text)).

Definition parse (sep : ascii) (header : bool) (text : string)
  : option DataFrame :=
  match nonempty_lines text with
  | [] => None
  | first :: rest =>
      let ncols := length (split_on sep [] first) in
      let body := if header then rest else first :: rest in
      match mapM (fun l => mapM number (split_on sep [] l)) body with
      | None => None
      | Some table =>
          if forallb (fun r => Nat.eqb (length r) ncols) table
          then Some (mkDataFrame ncols (map (map inject_Z) table))
          else None
      end
  end.

Definition repr (q : Q) : string :=
  let r := Qred q in
  if Pos.eqb (Qden r) 1 then pretty (Qnum r) +:+ ".0"
  else pretty (Qnum r) +:+ "/" +:+ pretty (Zpos (Qden r)).

#[export] Instance io : PandasIO := {| parse_csv := parse; float_repr := repr |}.

(** A text of [n] copies of a line. *)
Definition lines_of (line : string) (n : nat) : string :=
  String.concat "" (repeat (line +:+ newline) n).

(** A line that can be repeated: not empty and without line break. *)
Definition single_line (line : string) : Prop :=
  line <> ""
  /\ Forall (fun c => Ascii.eqb c (ascii_of_nat 10) = false)
            (String.list_ascii_of_string line).

End plain.

Section Observations.

Context `{PandasIO}.

(** [pd.read_csv] of [path] succeeds and returns [df]. *)
Definition loads (w : gmap string node) (path : string) (sep : ascii)
           (header : bool) (df : DataFrame) : Prop :=
  exists text, w !! path = Some (File text) /\ parse_csv sep header text = Some df.

(** The lines one recording contributes to the output table. *)
Definition recording_lines (df : DataFrame) (n : Z) : list string :=
  map csv_line (summary_rows df n).

(** The lines of a sequence of recordings, recording after recording. *)
Definition table_lines (dfs : list DataFrame) (n : Z) : list string :=
  concat (map (fun df => recording_lines df n) dfs).

End Observations.

(** ** Example file systems *)

Module example.

(** A KBM data set: the base table has a header and [n] rows [1,2]. *)
Definition pumpe_v3 : Resampler := __init__ "data/kbm_dataset/pumpe_v3" 2.

Definition kbm_table (n : Z) : string :=
  plain.lines_of "x,y" 1 +:+ plain.lines_of "1,2" (Z.to_nat n).

Definition kbm_frame (n : Z) : DataFrame :=
  mkDataFrame 2 (repeat [1; 2]%Q (Z.to_nat n)).

Definition kbm_fs (n : Z) : gmap string node :=
  {[ "data/kbm_dataset/pumpe_v3_4000.csv" := File (kbm_table n) ]}.

(** A bearing data set: a directory of two recordings, [a] with [n] rows
    [1 2 3 4] and [b] with [n] rows [-5 6 -7 8], enumerated as [names]. *)
Definition bearings : Resampler := __init__ "data/bearing" 4.

Definition tsv_line (fields : list string) : string :=
  String.concat (String tab "") fields.

Definition recording_a (n : Z) : string :=
  plain.lines_of (tsv_line ["1"; "2"; "3"; "4"]) (Z.to_nat n).

Definition recording_b (n : Z) : string :=
  plain.lines_of (tsv_line ["-5"; "6"; "-7"; "8"]) (Z.to_nat n).

Definition frame_a (n : Z) : DataFrame :=
  mkDataFrame 4 (repeat [1; 2; 3; 4]%Q (Z.to_nat n)).

Definition frame_b (n : Z) : DataFrame :=
  mkDataFrame 4 (repeat [-5; 6; -7; 8]%Q (Z.to_nat n)).

Definition bearing_fs (names : list string) (n : Z) : gmap string node :=
  <["data/bearing" := Dir names]>
    (<["data/bearing/a" := File (recording_a n)]>
       (<["data/bearing/b" := File (recording_b n)]> ∅)).

End example.

(** ** Further definitions for the resampler *)

(** The sizes [resample_default] goes through. *)
Definition default_sizes : list Z := [10; 30; 100; 300; 1000]%Z.

(** How often a character occurs in a text. *)
Fixpoint count_char (c : ascii) (s : string) : nat :=
  match s with
  | EmptyString => 0
  | String d s' => (if Ascii.eqb d c then 1 else 0) + count_char c s'
  end.

(** ** class DataCleanerKBM

    [clean_data] computes the column [time_sec] with the Python function
    [lambda x: x.split('.')[0]]; [add_label_kbm] reads a cleaned table,
    counts per row the anomaly timestamps that match its time, sets the rows
    with a positive count to 1 and writes the table.  The rest of the class
    (splitting the tags, sorting, the checks that only print) is pandas and
    [datetime] code that is not modelled. *)

Module cleaner.

(** [s.split(sep)] for a separator of one character. *)
Fixpoint str_split (sep : ascii) (s : string) : list string :=
  match s with
  | EmptyString => [EmptyString]
  | String c s' =>
      if Ascii.eqb c sep then EmptyString :: str_split sep s'
      else match str_split sep s' with
           | [] => [String c EmptyString]
           | piece :: pieces => String c piece :: pieces
           end
  end.

(** [x.split('.')[0]]; the list of pieces is never empty. *)
Definition time_sec (x : string) : string :=
  match str_split "." x with
  | piece :: _ => piece
  | [] => EmptyString
  end.

Inductive exn : Set :=
  | KeyError
  | ValueError
  | OSError
  | ParserError.

(** A cell of a table: text, an integer or a float. *)
Inductive value : Type :=
  | VStr (s : string)
  | VInt (z : Z)
  | VNum (q : Q).

(** A row as [pd.read_csv] gives it: the column [time] holds text, the
    column [anomaly] integers; the other columns are kept as they are. *)
Record Row : Type := mkRow {
  time : string;
  anomaly : Z;
  others : list value
}.

(** A row of the table that is written: [time] may have been overwritten. *)
Record Labelled : Type := mkLabelled {
  l_time : value;
  l_anomaly : Z;
  l_others : list value
}.

(** What pandas, [re] and [datetime] do with text: reading the table,
    printing it, [str(datetime.strptime(ts, '%d/%m/%y  %H:%M:%S'))] (nothing
    when [strptime] raises), and whether a pattern matches at the start of
    a text ([Series.str.match]). *)
Class LabelIO : Type := {
  read_table : string -> option (list Row);
  write_table : list Labelled -> string;
  strptime_excel : string -> option string;
  str_match : string -> string -> bool
}.

Record DataCleanerKBM : Type := mkDataCleanerKBM {
  file_names : list string;
  data_path : string;
  anomaly_timestamps : gmap string (list string)
}.

Definition M (A : Type) : Type :=
  gmap string node -> gmap string node * (exn + A).

Definition ret {A} (a : A) : M A := fun w => (w, inr a).

Definition bind {A B} (c : M A) (k : A -> M B) : M B :=
  fun w =>
    match c w with
    | (w', inl e) => (w', inl e)
    | (w', inr a) => k a w'
    end.

Definition lift {A} (e : exn) (r : option A) : M A :=
  fun w =>
    match r with
    | Some a => (w, inr a)
    | None => (w, inl e)
    end.

Fixpoint for_ {A} (xs : list A) (body : A -> M unit) : M unit :=
  match xs with
  | [] => ret tt
  | x :: xs' => bind (body x) (fun _ => for_ xs' body)
  end.

Section Labelling.

Context `{LabelIO}.

(** [pd.read_csv(path)] *)
Definition read_csv (path : string) : M (list Row) :=
  fun w =>
    match w !! path with
    | Some (File text) => lift ParserError (read_table text) w
    | _ => (w, inl OSError)
    end.

(** [df.to_csv(path, index=False)]: the file is written anew. *)
Definition to_csv (df : list Labelled) (path : string) : M unit :=
  fun w =>
    match w !! path with
    | Some (Dir _) => (w, inl OSError)
    | _ => (<[path := File (write_table df)]> w, inr tt)
    end.

(** [df['anomaly'] += df['time'].str.match(pattern).astype(int)] *)
Definition add_matches (pattern : string) (df : list Row) : list Row :=
  map (fun r => mkRow (time r)
                      (anomaly r + (if str_match pattern (time r) then 1 else 0))
                      (others r)) df.

(** The value 1 in a column of the type of [v]. *)
Definition one_like (v : value) : value :=
  match v with
  | VNum _ => VNum 1
  | _ => VInt 1
  end.

(** [df[df['anomaly'] > 0] = 1]: a boolean mask selects rows, and every
    column of a selected row is set. *)
Definition set_rows_to_one (df : list Row) : list Labelled :=
  map (fun r => if (0 <? anomaly r)%Z
                then mkLabelled (VInt 1) 1 (map one_like (others r))
                else mkLabelled (VStr (time r)) (anomaly r) (others r)) df.

(** [f"data/kbm_dataset/{file_name}_labeled.csv"] *)
Definition labelled_path (file_name : string) : string :=
  "data/kbm_dataset/" +:+ file_name +:+ "_labeled.csv".

Definition label_file (self : DataCleanerKBM) (excel_timestamps : bool)
           (file_name : string) : M unit :=
  bind (read_csv (data_path self +:+ "/" +:+ file_name)) (fun df =>
  bind (lift KeyError (anomaly_timestamps self !! file_name)) (fun timestamps =>
  bind (if excel_timestamps
        then lift ValueError (mapM strptime_excel timestamps)
        else ret timestamps) (fun patterns =>
  let df := foldl (fun df pattern => add_matches pattern df) df patterns in
  let df := set_rows_to_one df in
  to_csv df (labelled_path file_name)))).

Definition add_label_kbm (self : DataCleanerKBM) (excel_timestamps : bool)
  : M unit :=
  for_ (file_names self) (label_file self excel_timestamps).


End Labelling.

End cleaner.

(** An instance that prints every number alike, for the properties that
    only count separators. *)
Definition plain_fixed_io : PandasIO :=
  {| parse_csv := plain.parse; float_repr := fun _ => "0.5" |}.

(** A small instance to run the labelling on examples: a table is one time
    per line, every row starts with the anomaly value 0 and one measurement;
    timestamps are taken as they are and a pattern matches when it is a
    prefix.  It stands in for pandas, [re] and [datetime] in the examples
    only. *)
Module plain_labels.

Definition read (text : string) : option (list cleaner.Row) :=
  Some (map (fun line => cleaner.mkRow (String.string_of_list_ascii line) 0
                           [cleaner.VNum (1 # 2)])
            (plain.nonempty_lines text)).

Definition show (v : cleaner.value) : string :=
  match v with
  | cleaner.VStr s => s
  | cleaner.VInt z => pretty z
  | cleaner.VNum q => plain.repr q
  end.

Definition write (df : list cleaner.Labelled) : string :=
  String.concat ""
    (map (fun r => String.concat ","
                     (show (cleaner.l_time r)
                      :: pretty (cleaner.l_anomaly r)
                      :: map show (cleaner.l_others r)) +:+ newline) df).

#[export] Instance io : cleaner.LabelIO :=
  {| cleaner.read_table := read;
     cleaner.write_table := write;
     cleaner.strptime_excel := Some;
     cleaner.str_match := String.prefix |}.

(** A cleaner for one file with one anomaly timestamp, and its table of
    two rows. *)
Definition stabilus : cleaner.DataCleanerKBM :=
  cleaner.mkDataCleanerKBM ["stabilus"; "piaggio"] "data/kbm_dataset"
    {[ "stabilus" := ["2019-06-17 10:22:00"] ]}.

Definition stabilus_fs : gmap string node :=
  {[ "data/kbm_dataset/stabilus" :=
       File ("2019-06-17 10:22:00.5" +:+ newline
             +:+ "2019-06-17 10:23:00.1" +:+ newline);
     "data/kbm_dataset/piaggio" :=
       File ("2019-06-17 10:22:00.7" +:+ newline) ]}.

End plain_labels.

(** * Properties *)

(** ** Splitting into windows *)

Section ArraySplit.

Context {A : Type}.
Implicit Types (l : list A) (sizes : list nat).

Lemma length_chunks sizes l : length (chunks sizes l) = length sizes.
Proof. revert l; induction sizes as [|s sizes IH]; intros l; simpl; auto. Qed.

Lemma concat_chunks sizes l :
  sum_list sizes <= length l ->
  concat (chunks sizes l) = take (sum_list sizes) l.
Proof.
  revert l; induction sizes as [|s sizes IH]; intros l Hle; simpl in *.
  - by rewrite take_0.
  - rewrite IH by (rewrite length_drop; lia).
    rewrite <- (take_drop s l) at 3.
    rewrite take_app_ge by (rewrite length_take; lia).
    rewrite length_take, Nat.min_l by lia.
    by replace (s + sum_list sizes - s) with (sum_list sizes) by lia.
Qed.

Lemma map_length_chunks sizes l :
  sum_list sizes <= length l ->
  map length (chunks sizes l) = sizes.
Proof.
  revert l; induction sizes as [|s sizes IH]; intros l Hle; simpl in *; auto.
  rewrite length_take, Nat.min_l by lia.
  f_equal. apply IH. rewrite length_drop; lia.
Qed.

Lemma slices_chunks sizes (a : nat) l :
  map (fun i => np.slice (nth i (a :: np.cumsum_from a sizes) 0)
                         (nth (S i) (a :: np.cumsum_from a sizes) 0) l)
      (seq 0 (length sizes))
  = chunks sizes (drop a l).
Proof.
  revert a; induction sizes as [|s sizes IH]; intros a; simpl; auto.
  f_equal.
  - unfold np.slice. f_equal. lia.
  - rewrite <- seq_shift, map_map. simpl.
    rewrite drop_drop. apply IH.
Qed.

End ArraySplit.

Lemma sum_list_repeat (x n : nat) : sum_list (repeat x n) = n * x.
Proof. induction n as [|n IH]; simpl; auto. Qed.

Lemma length_section_sizes (Ntotal Nsections : nat) :
  0 < Nsections ->
  length (tail (np.section_sizes Ntotal Nsections)) = Nsections.
Proof.
  intros Hpos. unfold np.section_sizes. simpl.
  rewrite length_app, !repeat_length.
  pose proof (Nat.mod_upper_bound Ntotal Nsections). lia.
Qed.

Lemma sum_section_sizes (Ntotal Nsections : nat) :
  0 < Nsections ->
  sum_list (tail (np.section_sizes Ntotal Nsections)) = Ntotal.
Proof.
  intros Hpos. unfold np.section_sizes. simpl.
  rewrite sum_list_with_app, !sum_list_repeat.
  pose proof (Nat.mod_upper_bound Ntotal Nsections ltac:(lia)).
  pose proof (Nat.div_mod_eq Ntotal Nsections). nia.
Qed.

Lemma array_split_chunks {A} (l : list A) (n : Z) :
  (0 < n)%Z ->
  np.array_split l n
  = inr (chunks (tail (np.section_sizes (length l) (Z.to_nat n))) l).
Proof.
  intros Hn. unfold np.array_split.
  destruct (Z.leb_spec n 0) as [?|_]; [lia|].
  f_equal.
  pose proof (length_section_sizes (length l) (Z.to_nat n) ltac:(lia)) as Hlen.
  set (sizes := tail (np.section_sizes (length l) (Z.to_nat n))) in *.
  change (np.cumsum (np.section_sizes (length l) (Z.to_nat n)))
    with (0 :: np.cumsum_from 0 sizes).
  rewrite <- Hlen, (slices_chunks sizes 0 l). by rewrite drop_0.
Qed.

Lemma array_split_nonpositive {A} (l : list A) (n : Z) :
  (n <= 0)%Z -> np.array_split l n = inl ValueError.
Proof.
  intros Hn. unfold np.array_split.
  by destruct (Z.leb_spec n 0) as [_|?]; [|lia].
Qed.

Lemma pd_array_split_pos (df : DataFrame) (n : Z) :
  (0 < n)%Z ->
  pd.array_split df n
  = inr (map (mkDataFrame (columns df))
             (chunks (tail (np.section_sizes (pd.len df) (Z.to_nat n))) (rows df))).
Proof.
  intros Hn. unfold pd.array_split, pd.len. by rewrite array_split_chunks.
Qed.

Lemma pd_array_split_nonpositive (df : DataFrame) (n : Z) :
  (n <= 0)%Z -> pd.array_split df n = inl ValueError.
Proof.
  intros Hn. unfold pd.array_split. by rewrite array_split_nonpositive.
Qed.

Lemma windows_pos (df : DataFrame) (n : Z) :
  (0 < n)%Z -> pd.array_split df n = inr (windows df n).
Proof.
  intros Hn. unfold windows. by rewrite pd_array_split_pos.
Qed.

Lemma windows_columns (df : DataFrame) (n : Z) :
  Forall (fun w => columns w = columns df) (windows df n).
Proof.
  unfold windows, pd.array_split.
  destruct (np.array_split (rows df) n) as [e|parts]; [constructor|].
  apply Forall_forall. intros w Hw.
  apply list_elem_of_fmap in Hw as (part & -> & _). done.
Qed.

Lemma windows_length (df : DataFrame) (n : Z) :
  (0 < n)%Z -> length (windows df n) = Z.to_nat n.
Proof.
  intros Hn. unfold windows. rewrite pd_array_split_pos by done.
  rewrite length_map, length_chunks. apply length_section_sizes. lia.
Qed.

Lemma windows_rows (df : DataFrame) (n : Z) :
  (0 < n)%Z ->
  map rows (windows df n)
  = chunks (tail (np.section_sizes (pd.len df) (Z.to_nat n))) (rows df).
Proof.
  intros Hn. unfold windows. rewrite pd_array_split_pos by done.
  rewrite map_map. simpl. apply map_id.
Qed.

Lemma windows_lens (df : DataFrame) (n : Z) :
  (0 < n)%Z ->
  map pd.len (windows df n)
  = tail (np.section_sizes (pd.len df) (Z.to_nat n)).
Proof.
  intros Hn.
  change (map pd.len (windows df n)) with (map (fun w => length (rows w)) (windows df n)).
  rewrite <- (map_map rows length), windows_rows by done.
  apply map_length_chunks. unfold pd.len. rewrite sum_section_sizes; lia.
Qed.

(** Claim C3. For a recording of [L] rows and a window count [N] with
    [1 <= N <= L], [np.array_split] returns exactly [N] windows; put end to
    end in their order they are the recording again (contiguous, nothing
    dropped, duplicated or reordered), their sizes add up to [L], the first
    [L mod N] have [L / N + 1] rows and the others [L / N], so two sizes
    differ by at most one. *)
Theorem partition_coverage (df : DataFrame) (N : Z) :
  (1 <= N <= Z.of_nat (pd.len df))%Z ->
  exists dfs : list DataFrame,
    pd.array_split df N = inr dfs
    /\ length dfs = Z.to_nat N
    /\ concat (map rows dfs) = rows df
    /\ Forall (fun w => columns w = columns df) dfs
    /\ sum_list (map pd.len dfs) = pd.len df
    /\ map pd.len dfs
       = repeat (pd.len df / Z.to_nat N + 1) (pd.len df mod Z.to_nat N)
         ++ repeat (pd.len df / Z.to_nat N)
                   (Z.to_nat N - pd.len df mod Z.to_nat N)
    /\ (forall w1 w2, In w1 dfs -> In w2 dfs -> pd.len w1 <= pd.len w2 + 1).
Proof.
  intros [Hlo Hhi]. exists (windows df N).
  assert (0 < N)%Z as Hpos by lia.
  pose proof (windows_lens df N Hpos) as Hlens.
  repeat split.
  - by apply windows_pos.
  - by apply windows_length.
  - rewrite windows_rows, concat_chunks by (try rewrite sum_section_sizes; unfold pd.len; lia).
    rewrite sum_section_sizes by lia. apply firstn_all.
  - apply windows_columns.
  - rewrite Hlens. apply sum_section_sizes. lia.
  - exact Hlens.
  - intros w1 w2 H1 H2.
    assert (forall w, In w (windows df N) ->
              pd.len w = pd.len df / Z.to_nat N
              \/ pd.len w = pd.len df / Z.to_nat N + 1) as Hsize.
    { intros w Hw. apply (in_map pd.len) in Hw. rewrite Hlens in Hw.
      unfold np.section_sizes in Hw. simpl in Hw.
      apply in_app_or in Hw as [Hw|Hw]; apply repeat_spec in Hw; lia. }
    destruct (Hsize w1 H1), (Hsize w2 H2); lia.
Qed.

Lemma partition_coverage_witness :
  exists dfs : list DataFrame,
    pd.array_split (mkDataFrame 1 [[1]; [2]; [3]; [4]; [5]; [6]; [7]]%Q) 3 = inr dfs
    /\ map rows dfs = [[[1]; [2]; [3]]; [[4]; [5]]; [[6]; [7]]]%Q.
Proof.
  destruct (partition_coverage (mkDataFrame 1 [[1]; [2]; [3]; [4]; [5]; [6]; [7]]%Q) 3)
    as (dfs & Hsplit & _); [unfold pd.len; simpl; lia|].
  exists dfs. split; [exact Hsplit|].
  vm_compute in Hsplit. injection Hsplit as <-. reflexivity.
Defined.

(** ** Reducing a window to a summary row *)

Lemma length_mean (df : DataFrame) : length (pd.mean df) = columns df.
Proof. unfold pd.mean. by rewrite length_map, length_seq. Qed.

Lemma length_mean_abs (df : DataFrame) :
  length (pd.mean (pd.abs df)) = columns df.
Proof. apply (length_mean (pd.abs df)). Qed.


Lemma reshape_row_ok (df : DataFrame) (k : Z) :
  np.reshape_row (pd.mean (pd.abs df)) k
  = if width_ok df k then inr (pd.mean (pd.abs df)) else inl ValueError.
Proof. unfold np.reshape_row, width_ok. by rewrite length_mean_abs. Qed.








(** ** Strings and paths *)

Lemma string_app_cons (c : ascii) (s t : string) :
  String c s +:+ t = String c (s +:+ t).
Proof. reflexivity. Qed.

Lemma string_app_nil_r (s : string) : s +:+ "" = s.
Proof. induction s as [|c s IH]; [done|]. by rewrite string_app_cons, IH. Qed.

Lemma string_app_assoc (s1 s2 s3 : string) :
  (s1 +:+ s2) +:+ s3 = s1 +:+ (s2 +:+ s3).
Proof.
  induction s1 as [|c s1 IH]; [done|]. by rewrite !string_app_cons, IH.
Qed.

Lemma string_length_app (s1 s2 : string) :
  String.length (s1 +:+ s2) = String.length s1 + String.length s2.
Proof.
  induction s1 as [|c s1 IH]; [done|].
  rewrite string_app_cons. simpl. by rewrite IH.
Qed.

Lemma string_app_inv_r (s1 s2 t : string) : s1 +:+ t = s2 +:+ t -> s1 = s2.
Proof.
  revert s2; induction s1 as [|c s1 IH]; intros [|d s2] Heq; auto.
  - apply (f_equal String.length) in Heq.
    rewrite !string_length_app in Heq. simpl in Heq. lia.
  - apply (f_equal String.length) in Heq.
    rewrite !string_length_app in Heq. simpl in Heq. lia.
  - rewrite !string_app_cons in Heq. injection Heq as -> Heq.
    f_equal. by apply IH.
Qed.

Lemma concat_lines_cons (line : string) (lines : list string) :
  String.concat "" (line :: lines) = line +:+ String.concat "" lines.
Proof. destruct lines; simpl; [by rewrite string_app_nil_r|done]. Qed.

Lemma concat_lines_app (ls1 ls2 : list string) :
  String.concat "" (ls1 ++ ls2) = String.concat "" ls1 +:+ String.concat "" ls2.
Proof.
  induction ls1 as [|l ls1 IH]; [done|].
  rewrite <- app_comm_cons, !concat_lines_cons, IH.
  by rewrite string_app_assoc.
Qed.

Section Paths.

Context `{PandasIO}.

(** A recording inside the directory never has the path of the output
    table, which lies next to the directory. *)
Lemma recording_path_ne (self : Resampler) (file_name : string) (n : Z) :
  data_path self +:+ "/" +:+ file_name <> resampled_path self n.
Proof.
  unfold resampled_path. intros Heq.
  apply (inj (String.append (data_path self))) in Heq. discriminate.
Qed.

(** The output table is the base table exactly for the size 4000. *)
Lemma resampled_path_base (self : Resampler) (n : Z) :
  resampled_path self n = data_path self +:+ "_4000.csv" <-> n = 4000%Z.
Proof.
  unfold resampled_path. split; [|by intros ->].
  intros Heq. apply (inj (String.append (data_path self))) in Heq.
  change "_4000.csv" with ("_" +:+ (pretty 4000%Z +:+ ".csv")) in Heq.
  apply (inj (String.append "_")) in Heq.
  apply string_app_inv_r in Heq.
  by apply (inj pretty) in Heq.
Qed.

End Paths.

(** ** The output table *)

Section Sink.

Implicit Types (w : gmap string node) (out path text : string).

Lemma lookup_append_text_ne out text w path :
  path <> out -> append_text out text w !! path = w !! path.
Proof. intros Hne. unfold append_text. by rewrite lookup_insert_ne. Qed.

Lemma file_text_append_text out text w :
  file_text (append_text out text w) out = file_text w out +:+ text.
Proof. unfold append_text, file_text at 1. by rewrite lookup_insert_eq. Qed.

Lemma append_text_not_dir out text w : ~ is_dir (append_text out text w) out.
Proof.
  unfold append_text, is_dir. rewrite lookup_insert_eq. by intros [entries ?].
Qed.

Lemma delete_append_text out text w :
  delete out (append_text out text w) = delete out w.
Proof. unfold append_text. by rewrite delete_insert_eq. Qed.

Lemma append_lines_cons out line lines w :
  append_lines out (line :: lines) w
  = append_lines out lines (append_text out line w).
Proof. reflexivity. Qed.

Lemma append_lines_app out lines1 lines2 w :
  append_lines out (lines1 ++ lines2) w
  = append_lines out lines2 (append_lines out lines1 w).
Proof. unfold append_lines. by rewrite foldl_app. Qed.

Lemma lookup_append_lines_ne out lines w path :
  path <> out -> append_lines out lines w !! path = w !! path.
Proof.
  intros Hne. revert w; induction lines as [|line lines IH]; intros w; [done|].
  by rewrite append_lines_cons, IH, lookup_append_text_ne.
Qed.

Lemma append_lines_not_dir out lines w :
  ~ is_dir w out -> ~ is_dir (append_lines out lines w) out.
Proof.
  revert w; induction lines as [|line lines IH]; intros w Hw; [done|].
  rewrite append_lines_cons. apply IH, append_text_not_dir.
Qed.

Lemma file_text_append_lines out lines w :
  file_text (append_lines out lines w) out
  = file_text w out +:+ String.concat "" lines.
Proof.
  revert w; induction lines as [|line lines IH]; intros w.
  - simpl. by rewrite string_app_nil_r.
  - rewrite append_lines_cons, IH, file_text_append_text, concat_lines_cons.
    by rewrite string_app_assoc.
Qed.

Lemma delete_append_lines out lines w :
  delete out (append_lines out lines w) = delete out w.
Proof.
  revert w; induction lines as [|line lines IH]; intros w; [done|].
  by rewrite append_lines_cons, IH, delete_append_text.
Qed.

Lemma not_dir_delete out w : ~ is_dir (delete out w) out.
Proof. unfold is_dir. rewrite lookup_delete_eq. by intros [entries ?]. Qed.

Lemma file_text_delete out w : file_text (delete out w) out = "".
Proof. unfold file_text. by rewrite lookup_delete_eq. Qed.

End Sink.

(** ** Running the loops *)

Section Runs.

Context `{PandasIO}.
Implicit Types (w : gmap string node) (out : string) (df : DataFrame)
         (self : Resampler).

Local Abbreviation write_rows k out :=
  (fun df_chunk : DataFrame =>
     mean_abs <~ lift (np.reshape_row (pd.mean (pd.abs df_chunk)) k) ;;
     to_csv mean_abs out).

Local Abbreviation split_write n k out :=
  (fun df_measurement : DataFrame =>
     dfs <~ lift (pd.array_split df_measurement n) ;;
     for_ dfs (write_rows k out)).

Lemma to_csv_append row out w :
  ~ is_dir w out ->
  to_csv row out w = (append_text out (csv_line row) w, inr tt).
Proof.
  intros Hw. unfold to_csv, append_text, file_text, is_dir in *.
  destruct (w !! out) as [[text|entries]|]; [done| |done].
  exfalso. eauto.
Qed.

Lemma write_rows_ok k out (cs : list DataFrame) w :
  ~ is_dir w out ->
  Forall (fun c => width_ok c k = true) cs ->
  for_ cs (write_rows k out) w
  = (append_lines out (map (fun c => csv_line (pd.mean (pd.abs c))) cs) w, inr tt).
Proof.
  intros Hw Hok. revert w Hw.
  induction Hok as [|c cs Hc _ IH]; intros w Hw; [done|].
  simpl. unfold bind at 1 2. rewrite reshape_row_ok, Hc. simpl.
  rewrite to_csv_append by done.
  rewrite IH by apply append_text_not_dir. done.
Qed.

Lemma write_rows_bad k out (c : DataFrame) (cs : list DataFrame) w :
  width_ok c k = false ->
  for_ (c :: cs) (write_rows k out) w = (w, inl ValueError).
Proof.
  intros Hc. simpl. unfold bind at 1 2. by rewrite reshape_row_ok, Hc.
Qed.

Lemma width_ok_columns (c df : DataFrame) (k : Z) :
  columns c = columns df -> width_ok c k = width_ok df k.
Proof. unfold width_ok. by intros ->. Qed.

Lemma split_write_ok n k out df w :
  (0 < n)%Z -> width_ok df k = true -> ~ is_dir w out ->
  split_write n k out df w
  = (append_lines out (map csv_line (summary_rows df n)) w, inr tt).
Proof.
  intros Hn Hk Hw. unfold bind at 1. rewrite windows_pos by done. simpl.
  rewrite write_rows_ok; [|done|].
  - unfold summary_rows. by rewrite map_map.
  - eapply Forall_impl; [apply windows_columns|].
    intros c Hc. simpl in Hc. by rewrite (width_ok_columns c df).
Qed.

Lemma split_write_fail n k out df w :
  ((n <= 0)%Z \/ width_ok df k = false) ->
  exists e, split_write n k out df w = (w, inl e).
Proof.
  intros Hcase. unfold bind at 1.
  destruct (Z.leb_spec n 0) as [Hn|Hn].
  { rewrite pd_array_split_nonpositive by done. by eexists. }
  destruct Hcase as [?|Hk]; [lia|].
  rewrite windows_pos by done. simpl.
  pose proof (windows_length df n Hn) as Hlen.
  pose proof (windows_columns df n) as Hcols.
  destruct (windows df n) as [|c cs]; [simpl in Hlen; lia|].
  exists ValueError. apply write_rows_bad.
  inversion Hcols as [|? ? Hc _]; subst.
  by rewrite (width_ok_columns c df).
Qed.

Local Abbreviation bearing_file self n :=
  (fun file_name : string =>
     df <~ read_csv (data_path self +:+ "/" +:+ file_name) tab false ;;
     split_write n 4%Z (resampled_path self n) df).

Lemma for_cons {A} (x : A) (xs : list A) (body : A -> M unit) w :
  for_ (x :: xs) body w
  = match body x w with
    | (w', inl e) => (w', inl e)
    | (w', inr _) => for_ xs body w'
    end.
Proof. reflexivity. Qed.

Lemma bind_run {A B} (c : M A) (k : A -> M B) w :
  bind c k w
  = match c w with
    | (w', inl e) => (w', inl e)
    | (w', inr a) => k a w'
    end.
Proof. reflexivity. Qed.

Lemma read_csv_loads w path sep header df :
  loads w path sep header df -> read_csv path sep header w = (w, inr df).
Proof. intros (text & Hfile & Hparse). unfold read_csv. by rewrite Hfile, Hparse. Qed.

Lemma read_csv_cases w path sep header :
  (exists e, read_csv path sep header w = (w, inl e))
  \/ (exists df, loads w path sep header df
                 /\ read_csv path sep header w = (w, inr df)).
Proof.
  unfold read_csv, loads.
  destruct (w !! path) as [[text|entries]|] eqn:Hfile; eauto.
  destruct (parse_csv sep header text) as [df|] eqn:Hparse; eauto 7.
Qed.

Lemma loads_append_lines out lines w path sep header df :
  path <> out ->
  loads (append_lines out lines w) path sep header df
  <-> loads w path sep header df.
Proof. intros Hne. unfold loads. by rewrite lookup_append_lines_ne. Qed.

Lemma loads_delete out w path sep header df :
  path <> out ->
  loads (delete out w) path sep header df <-> loads w path sep header df.
Proof. intros Hne. unfold loads. by rewrite lookup_delete_ne. Qed.

Lemma bearing_file_ok self n file_name df w :
  loads w (data_path self +:+ "/" +:+ file_name) tab false df ->
  (0 < n)%Z -> width_ok df 4 = true -> ~ is_dir w (resampled_path self n) ->
  bearing_file self n file_name w
  = (append_lines (resampled_path self n) (recording_lines df n) w, inr tt).
Proof.
  intros Hload Hn Hk Hw. cbv beta; rewrite bind_run.
  rewrite (read_csv_loads _ _ _ _ _ Hload).
  by apply split_write_ok.
Qed.

Lemma bearing_file_cases self n file_name w :
  ~ is_dir w (resampled_path self n) ->
  (exists e, bearing_file self n file_name w = (w, inl e))
  \/ (exists df,
        loads w (data_path self +:+ "/" +:+ file_name) tab false df
        /\ (0 < n)%Z /\ width_ok df 4 = true
        /\ bearing_file self n file_name w
           = (append_lines (resampled_path self n) (recording_lines df n) w, inr tt)).
Proof.
  intros Hw.
  destruct (read_csv_cases w (data_path self +:+ "/" +:+ file_name) tab false)
    as [[e He]|(df & Hload & Hread)].
  { left. exists e. cbv beta; rewrite bind_run. by rewrite He. }
  destruct (Z.ltb_spec 0 n) as [Hn|Hn], (width_ok df 4) eqn:Hk.
  - right. exists df. repeat split; try done. by apply bearing_file_ok.
  - left. cbv beta; rewrite bind_run. rewrite Hread.
    apply split_write_fail. by right.
  - left. cbv beta; rewrite bind_run. rewrite Hread.
    apply split_write_fail. left; lia.
  - left. cbv beta; rewrite bind_run. rewrite Hread.
    apply split_write_fail. left; lia.
Qed.

Lemma table_lines_cons df dfs n :
  table_lines (df :: dfs) n = recording_lines df n ++ table_lines dfs n.
Proof. reflexivity. Qed.

(** The loop over the directory when every recording loads with four
    columns. *)
Lemma bearing_loop_ok self n names dfs w :
  (0 < n)%Z -> ~ is_dir w (resampled_path self n) ->
  Forall2 (fun name df =>
             loads w (data_path self +:+ "/" +:+ name) tab false df
             /\ width_ok df 4 = true) names dfs ->
  for_ names (bearing_file self n) w
  = (append_lines (resampled_path self n) (table_lines dfs n) w, inr tt).
Proof.
  intros Hn Hw Hall. revert w dfs Hw Hall.
  induction names as [|name names IH]; intros w dfs Hw Hall;
    inversion Hall as [|? df ? dfs' [Hload Hk] Hrest]; subst; [done|].
  rewrite for_cons. cbv beta.
  rewrite (bearing_file_ok _ _ _ df) by done.
  rewrite (IH _ dfs').
  - by rewrite table_lines_cons, append_lines_app.
  - by apply append_lines_not_dir.
  - eapply Forall2_impl; [exact Hrest|]. intros name' df' [Hl' Hk'].
    split; [|done]. apply loads_append_lines; [apply recording_path_ne|done].
Qed.

(** The loop over the directory in general: the recordings of a prefix of
    the enumeration have been written, whole. *)
Lemma bearing_loop_cases self n names w :
  ~ is_dir w (resampled_path self n) ->
  exists dfs r,
    for_ names (bearing_file self n) w
    = (append_lines (resampled_path self n) (table_lines dfs n) w, r)
    /\ Forall2 (fun name df =>
                  loads w (data_path self +:+ "/" +:+ name) tab false df
                  /\ width_ok df 4 = true) (take (length dfs) names) dfs
    /\ (r = inr tt -> length dfs = length names).
Proof.
  revert w. induction names as [|name names IH]; intros w Hw.
  { exists [], (inr tt). repeat split; constructor. }
  rewrite for_cons. cbv beta.
  destruct (bearing_file_cases self n name w Hw)
    as [[e He]|(df & Hload & Hn & Hk & Hrun)].
  { exists [], (inl e). rewrite He.
    repeat split; [constructor|done]. }
  set (w1 := append_lines (resampled_path self n) (recording_lines df n) w).
  destruct (IH w1) as (dfs & r & Hloop & Hall & Hlen).
  { by apply append_lines_not_dir. }
  exists (df :: dfs), r. rewrite Hrun. fold w1.
  rewrite Hloop. repeat split.
  - by rewrite table_lines_cons, append_lines_app.
  - simpl. constructor; [done|].
    eapply Forall2_impl; [exact Hall|]. intros name' df' [Hl' Hk'].
    split; [|done]. eapply loads_append_lines; [apply recording_path_ne|done].
  - intros Hr. simpl. by rewrite Hlen.
Qed.

Lemma measurements_loop_ok n k out (ms : list DataFrame) w :
  (0 < n)%Z -> ~ is_dir w out ->
  Forall (fun m => width_ok m k = true) ms ->
  for_ ms (split_write n k out) w
  = (append_lines out (table_lines ms n) w, inr tt).
Proof.
  intros Hn Hw Hall. revert w Hw.
  induction Hall as [|m ms Hm _ IH]; intros w Hw; [done|].
  rewrite for_cons. cbv beta. rewrite split_write_ok by done.
  rewrite IH by by apply append_lines_not_dir.
  by rewrite table_lines_cons, append_lines_app.
Qed.

Lemma measurements_loop_fail n k out (m : DataFrame) (ms : list DataFrame) w :
  ((n <= 0)%Z \/ width_ok m k = false) ->
  exists e, for_ (m :: ms) (split_write n k out) w = (w, inl e).
Proof.
  intros Hcase. rewrite for_cons. cbv beta.
  destruct (split_write_fail n k out m w Hcase) as [e ->]. by exists e.
Qed.

(** Deleting the old output table, then going on. *)
Lemma recreate_then {A} out (k : M A) w :
  ~ is_dir w out ->
  (present <~ os.path_exists out ;;
   (if present then os.remove out else ret tt) ;;; k) w
  = k (delete out w).
Proof.
  intros Hw. rewrite bind_run. unfold os.path_exists. cbv beta iota.
  unfold is_dir in Hw.
  destruct (w !! out) as [[text|entries]|] eqn:Hout.
  - rewrite bool_decide_eq_true_2 by by eexists.
    rewrite bind_run. unfold os.remove. by rewrite Hout.
  - exfalso. eauto.
  - rewrite bool_decide_eq_false_2 by by intros [? ?].
    rewrite bind_run. unfold ret. by rewrite delete_id.
Qed.

Lemma recreate_dir {A} out (k : M A) w :
  is_dir w out ->
  (present <~ os.path_exists out ;;
   (if present then os.remove out else ret tt) ;;; k) w
  = (w, inl OSError).
Proof.
  intros [entries Hout]. rewrite bind_run. unfold os.path_exists. cbv beta iota.
  rewrite Hout, bool_decide_eq_true_2 by by eexists.
  rewrite bind_run. unfold os.remove. by rewrite Hout.
Qed.

Lemma is_dir_dec w out : is_dir w out \/ ~ is_dir w out.
Proof.
  unfold is_dir. destruct (w !! out) as [[text|entries]|]; eauto;
    right; by intros [? ?].
Qed.

Lemma resample_data_run self n w :
  ~ is_dir w (resampled_path self n) ->
  resample_data self n w
  = match dataset self with
    | kbm => resample_data_kbm self n 4000
    | bearing => resample_data_bearing self n
    end (delete (resampled_path self n) w).
Proof. intros Hw. unfold resample_data. by rewrite recreate_then. Qed.

Lemma resample_data_dir self n w :
  is_dir w (resampled_path self n) ->
  resample_data self n w = (w, inl OSError).
Proof. intros Hw. unfold resample_data. by rewrite recreate_dir. Qed.

(** The guard comes first in [resample_data_kbm]. *)
Lemma resample_data_kbm_guard self n w :
  resample_data_kbm self n n w = (w, inl AssertionError).
Proof.
  unfold resample_data_kbm. rewrite bind_run. by rewrite Z.eqb_refl.
Qed.

(** [resample_data_kbm] past its guard. *)
Lemma resample_data_kbm_run self n sampling_rate w :
  n <> sampling_rate ->
  ~ is_dir w (resampled_path self n) ->
  resample_data_kbm self n sampling_rate w
  = match read_csv (data_path self +:+ "_4000.csv") comma true
                   (delete (resampled_path self n) w) with
    | (w', inl e) => (w', inl e)
    | (w', inr df) =>
        match kbm_measurements df sampling_rate with
        | inl e => (w', inl e)
        | inr ms =>
            for_ ms (split_write n (num_features self) (resampled_path self n)) w'
        end
    end.
Proof.
  intros Hne Hw. unfold resample_data_kbm. rewrite bind_run.
  destruct (Z.eqb_spec n sampling_rate) as [?|_]; [done|]. simpl.
  rewrite recreate_then by done. rewrite bind_run.
  destruct (read_csv _ _ _ _) as [w' [e|df]]; [done|].
  unfold kbm_measurements, kbm_truncate. rewrite bind_run.
  destruct (py_mod _ _) as [e|r]; [done|]. simpl.
  rewrite bind_run.
  by destruct (pd.array_split _ _) as [e|ms].
Qed.

Lemma kbm_measurements_columns df sampling_rate ms :
  kbm_measurements df sampling_rate = inr ms ->
  Forall (fun m => columns m = columns df) ms.
Proof.
  unfold kbm_measurements, kbm_truncate.
  destruct (py_mod _ _) as [e|r]; [done|]. intros Hms.
  pose proof (windows_columns (pd.iloc_to (- r) df)
                (Z.of_nat (pd.len (pd.iloc_to (- r) df)) ÷ 4000)) as Hcols.
  unfold windows in Hcols. by rewrite Hms in Hcols.
Qed.

Lemma kbm_measurements_nonempty df sampling_rate ms :
  kbm_measurements df sampling_rate = inr ms -> ms <> [].
Proof.
  unfold kbm_measurements, kbm_truncate.
  destruct (py_mod _ _) as [e|r]; [done|].
  set (df' := pd.iloc_to (- r) df). set (cnt := (Z.of_nat (pd.len df') ÷ 4000)%Z).
  destruct (Z.leb_spec cnt 0) as [Hc|Hc].
  { by rewrite pd_array_split_nonpositive. }
  rewrite windows_pos by done. intros [= <-] Hnil.
  pose proof (windows_length df' cnt Hc) as Hlen. rewrite Hnil in Hlen.
  simpl in Hlen. lia.
Qed.

Lemma resample_data_kbm_ok self n sampling_rate w df ms :
  n <> sampling_rate ->
  ~ is_dir w (resampled_path self n) ->
  loads (delete (resampled_path self n) w)
        (data_path self +:+ "_4000.csv") comma true df ->
  kbm_measurements df sampling_rate = inr ms ->
  (0 < n)%Z -> width_ok df (num_features self) = true ->
  resample_data_kbm self n sampling_rate w
  = (append_lines (resampled_path self n) (table_lines ms n)
                  (delete (resampled_path self n) w), inr tt).
Proof.
  intros Hne Hw Hload Hms Hn Hk.
  rewrite resample_data_kbm_run, (read_csv_loads _ _ _ _ _ Hload), Hms by done.
  apply measurements_loop_ok; [done|apply not_dir_delete|].
  eapply Forall_impl; [by eapply kbm_measurements_columns|].
  intros m Hm. simpl in Hm. by rewrite (width_ok_columns m df).
Qed.

(** Either nothing is written and an exception is raised, or every
    measurement is written whole. *)
Lemma resample_data_kbm_cases self n sampling_rate w :
  n <> sampling_rate ->
  ~ is_dir w (resampled_path self n) ->
  (exists e, resample_data_kbm self n sampling_rate w
             = (delete (resampled_path self n) w, inl e))
  \/ (exists df ms,
        loads (delete (resampled_path self n) w)
              (data_path self +:+ "_4000.csv") comma true df
        /\ kbm_measurements df sampling_rate = inr ms
        /\ (0 < n)%Z /\ width_ok df (num_features self) = true
        /\ resample_data_kbm self n sampling_rate w
           = (append_lines (resampled_path self n) (table_lines ms n)
                           (delete (resampled_path self n) w), inr tt)).
Proof.
  intros Hne Hw.
  destruct (read_csv_cases (delete (resampled_path self n) w)
              (data_path self +:+ "_4000.csv") comma true)
    as [[e He]|(df & Hload & Hread)].
  { left. exists e. by rewrite resample_data_kbm_run, He. }
  destruct (kbm_measurements df sampling_rate) as [e|ms] eqn:Hms.
  { left. exists e. by rewrite resample_data_kbm_run, Hread, Hms. }
  destruct (Z.ltb_spec 0 n) as [Hn|Hn], (width_ok df (num_features self)) eqn:Hk.
  { right. exists df, ms. repeat split; try done.
    by apply (resample_data_kbm_ok _ _ _ _ df ms). }
  all: left; rewrite resample_data_kbm_run, Hread, Hms by done.
  all: pose proof (kbm_measurements_nonempty _ _ _ Hms) as Hnil.
  all: pose proof (kbm_measurements_columns _ _ _ Hms) as Hcols.
  all: destruct ms as [|m ms]; [done|].
  all: inversion Hcols as [|? ? Hm _]; subst.
  all: apply measurements_loop_fail.
  - right. by rewrite (width_ok_columns m df).
  - left; lia.
  - left; lia.
Qed.

Lemma resample_data_bearing_run self n names w :
  w !! data_path self = Some (Dir names) ->
  resample_data_bearing self n w = for_ names (bearing_file self n) w.
Proof.
  intros Hdir. unfold resample_data_bearing. rewrite bind_run.
  unfold os.scandir. by rewrite Hdir.
Qed.

Lemma resample_data_bearing_nodir self n w :
  ~ is_dir w (data_path self) ->
  resample_data_bearing self n w = (w, inl OSError).
Proof.
  intros Hdir. unfold resample_data_bearing. rewrite bind_run.
  unfold os.scandir, is_dir in *.
  destruct (w !! data_path self) as [[text|entries]|]; try done.
  exfalso. eauto.
Qed.

(** The directory is not the output table. *)
Lemma data_path_ne self n : data_path self <> resampled_path self n.
Proof.
  unfold resampled_path. intros Heq.
  apply (f_equal String.length) in Heq.
  rewrite string_length_app in Heq. simpl in Heq. lia.
Qed.

(** Whatever happens, the bearing strategy only appends lines to the output
    table. *)
Lemma resample_data_bearing_frame self n w :
  ~ is_dir w (resampled_path self n) ->
  exists lines,
    (resample_data_bearing self n w).1
    = append_lines (resampled_path self n) lines w.
Proof.
  intros Hw. destruct (is_dir_dec w (data_path self)) as [[names Hdir]|Hno].
  - rewrite (resample_data_bearing_run _ _ names) by done.
    destruct (bearing_loop_cases self n names w Hw) as (dfs & r & -> & _).
    by eexists.
  - rewrite resample_data_bearing_nodir by done. by exists [].
Qed.

End Runs.

(** ** Windows of equal size *)


Lemma section_sizes_even (q n : nat) :
  0 < n -> tail (np.section_sizes (q * n) n) = repeat q n.
Proof.
  intros Hn. unfold np.section_sizes. simpl.
  rewrite Nat.Div0.mod_mul, Nat.div_mul by lia. simpl.
  by rewrite Nat.sub_0_r.
Qed.


Lemma summary_rows_length (df : DataFrame) (n : Z) :
  (0 < n)%Z -> length (summary_rows df n) = Z.to_nat n.
Proof. intros Hn. unfold summary_rows. by rewrite length_map, windows_length. Qed.

Lemma summary_rows_width (df : DataFrame) (n : Z) :
  Forall (fun row => length row = columns df) (summary_rows df n).
Proof.
  unfold summary_rows. apply Forall_map.
  eapply Forall_impl; [apply windows_columns|].
  intros c Hc. simpl in *. by rewrite length_mean_abs.
Qed.

(** ** Truncation in the KBM strategy *)

Lemma slice_to_zero {A} (xs : list A) : slice_to (- 0) xs = [].
Proof. reflexivity. Qed.

Lemma slice_to_neg {A} (r : Z) (xs : list A) :
  (0 < r <= Z.of_nat (length xs))%Z ->
  slice_to (- r) xs = take (length xs - Z.to_nat r) xs.
Proof.
  intros Hr. unfold slice_to.
  destruct (Z.ltb_spec (- r) 0) as [_|?]; [|lia].
  f_equal. lia.
Qed.

Lemma kbm_truncate_multiple (df : DataFrame) (sampling_rate : Z) :
  sampling_rate <> 0%Z ->
  (Z.of_nat (pd.len df) mod sampling_rate = 0)%Z ->
  kbm_truncate df sampling_rate = inr (mkDataFrame (columns df) []).
Proof.
  intros HR Hmod. unfold kbm_truncate, py_mod.
  destruct (Z.eqb_spec sampling_rate 0) as [?|_]; [done|].
  by rewrite Hmod.
Qed.

Lemma kbm_measurements_multiple (df : DataFrame) (sampling_rate : Z) :
  sampling_rate <> 0%Z ->
  (Z.of_nat (pd.len df) mod sampling_rate = 0)%Z ->
  kbm_measurements df sampling_rate = inl ValueError.
Proof.
  intros HR Hmod. unfold kbm_measurements.
  by rewrite kbm_truncate_multiple.
Qed.

Lemma kbm_truncate_partial (df : DataFrame) (sampling_rate : Z) :
  (0 < sampling_rate)%Z ->
  (Z.of_nat (pd.len df) mod sampling_rate <> 0)%Z ->
  kbm_truncate df sampling_rate
  = inr (mkDataFrame (columns df)
           (take (pd.len df - Z.to_nat (Z.of_nat (pd.len df) mod sampling_rate))
                 (rows df))).
Proof.
  intros HR Hmod. unfold kbm_truncate, py_mod.
  destruct (Z.eqb_spec sampling_rate 0) as [?|_]; [lia|].
  unfold pd.iloc_to. rewrite slice_to_neg; [done|].
  pose proof (Z.mod_pos_bound (Z.of_nat (pd.len df)) sampling_rate HR).
  pose proof (Z.mod_le (Z.of_nat (pd.len df)) sampling_rate ltac:(lia) HR).
  unfold pd.len in *. lia.
Qed.

(** ** The claims on the runs *)

Section Outcomes.

Context `{PandasIO}.
Implicit Types (w : gmap string node) (df : DataFrame) (self : Resampler).

(** Claim C1, at the inputs where the code departs from it.  When the
    length of the base table is an exact multiple of [sampling_rate], the
    slice [df.iloc[:-0]] is [df.iloc[:0]]: every row is dropped, the number
    of sections is [0], [np.array_split] raises [ValueError] and nothing is
    written. *)
Theorem kbm_exact_multiple_drops_all self n sampling_rate w df :
  n <> sampling_rate ->
  sampling_rate <> 0%Z ->
  ~ is_dir w (resampled_path self n) ->
  loads (delete (resampled_path self n) w)
        (data_path self +:+ "_4000.csv") comma true df ->
  (Z.of_nat (pd.len df) mod sampling_rate = 0)%Z ->
  kbm_truncate df sampling_rate = inr (mkDataFrame (columns df) [])
  /\ resample_data_kbm self n sampling_rate w
     = (delete (resampled_path self n) w, inl ValueError).
Proof.
  intros Hne HR Hw Hload Hmod. split; [by apply kbm_truncate_multiple|].
  rewrite resample_data_kbm_run, (read_csv_loads _ _ _ _ _ Hload) by done.
  by rewrite kbm_measurements_multiple.
Qed.

(** Claim C2, at the input where the code departs from it.  [resample_data]
    removes the file named [<data_path>_4000.csv] before it calls the KBM
    strategy, whose guard then raises: the file that was there is gone. *)
Theorem resample_data_guard_after_delete self w text :
  dataset self = kbm ->
  w !! resampled_path self 4000 = Some (File text) ->
  resample_data self 4000 w
  = (delete (data_path self +:+ "_4000.csv") w, inl AssertionError).
Proof.
  intros Hkbm Hfile. rewrite resample_data_run, Hkbm.
  - apply resample_data_kbm_guard.
  - unfold is_dir. rewrite Hfile. by intros [? ?].
Qed.

(** Claim C5. A run of the bearing strategy through [resample_data] starts
    from a file system without the output table, whatever the table held
    before, and from there only appends lines to it; so a second run on
    what the first one left gives the same file system and the same outcome
    as the first, and in particular the same output table. *)
Theorem idempotent_rebuild self n w :
  dataset self = bearing ->
  ~ is_dir w (resampled_path self n) ->
  resample_data self n w
  = resample_data_bearing self n (delete (resampled_path self n) w)
  /\ (exists lines,
        (resample_data self n w).1
        = append_lines (resampled_path self n) lines
                       (delete (resampled_path self n) w))
  /\ (forall stale,
        resample_data self n (<[resampled_path self n := File stale]> w)
        = resample_data self n w)
  /\ resample_data self n (resample_data self n w).1 = resample_data self n w.
Proof.
  intros Hbearing Hw.
  assert (resample_data self n w
          = resample_data_bearing self n (delete (resampled_path self n) w))
    as Hrun by by rewrite resample_data_run, Hbearing.
  destruct (resample_data_bearing_frame self n
              (delete (resampled_path self n) w)) as [lines Hframe];
    [apply not_dir_delete|].
  split; [done|]. split; [|split].
  - exists lines. by rewrite Hrun.
  - intros stale. rewrite (resample_data_run _ _ (<[_ := _]> w)).
    + by rewrite delete_insert_eq, resample_data_run.
    + unfold is_dir. rewrite lookup_insert_eq. by intros [? ?].
  - rewrite Hrun at 1. rewrite Hframe.
    rewrite resample_data_run
      by (apply append_lines_not_dir, not_dir_delete).
    by rewrite delete_append_lines, delete_delete_eq, resample_data_run.
Qed.

End Outcomes.

(** ** Choosing the strategy *)

Lemma prefix_spec (s1 s2 : string) :
  String.prefix s1 s2 = true <-> exists post, s2 = s1 +:+ post.
Proof.
  revert s2; induction s1 as [|a s1 IH]; intros s2.
  - split; [intros _; by exists s2|intros _; by destruct s2].
  - destruct s2 as [|b s2]; simpl.
    + split; [done|intros [post Hpost]; discriminate].
    + destruct (ascii_dec a b) as [->|Hab].
      * rewrite IH. split; intros [post Hpost]; exists post.
        -- by rewrite string_app_cons, Hpost.
        -- rewrite string_app_cons in Hpost. by injection Hpost.
      * split; [done|]. intros [post Hpost].
        rewrite string_app_cons in Hpost. congruence.
Qed.

Section Dispatch.

Context `{PandasIO}.

Lemma str_in_spec (needle hay : string) :
  str_in needle hay = true
  <-> exists pre post, hay = pre +:+ needle +:+ post.
Proof.
  induction hay as [|c hay IH].
  - change (str_in needle "") with (String.prefix needle "" || false).
    rewrite orb_false_r, prefix_spec. split.
    + intros [post Hpost]. by exists "", post.
    + intros (pre & post & Hhay). destruct pre; [by exists post|discriminate].
  - change (str_in needle (String c hay))
      with (String.prefix needle (String c hay) || str_in needle hay).
    rewrite orb_true_iff, prefix_spec, IH. split.
    + intros [[post Hpost]|(pre & post & Hhay)].
      * by exists "", post.
      * exists (String c pre), post. by rewrite string_app_cons, Hhay.
    + intros (pre & post & Hhay). destruct pre as [|d pre].
      * left. by exists post.
      * right. rewrite string_app_cons in Hhay. injection Hhay as -> Hhay.
        by exists pre, post.
Qed.

(** Claim C9. The dataset is fixed by [__init__] from [data_path] alone: it is
    [kbm] exactly when ["kbm"] occurs somewhere in [data_path], and
    [bearing] otherwise, whatever the number of features and the file
    system are.  After it has removed the old output table,
    [resample_data] runs the KBM strategy (with the sampling rate 4000) in
    the first case and the bearing strategy in the second. *)
Theorem dispatch_on_data_path (path : string) (features : Z) (n : Z)
        (w : gmap string node) :
  (dataset (__init__ path features) = kbm
   <-> exists pre post, path = pre +:+ "kbm" +:+ post)
  /\ (dataset (__init__ path features) = bearing
      <-> ~ exists pre post, path = pre +:+ "kbm" +:+ post)
  /\ resample_data (__init__ path features) n w
     = (present <~ os.path_exists (resampled_path (__init__ path features) n) ;;
        (if present
         then os.remove (resampled_path (__init__ path features) n)
         else ret tt) ;;;
        if str_in "kbm" path
        then resample_data_kbm (__init__ path features) n 4000
        else resample_data_bearing (__init__ path features) n) w.
Proof.
  rewrite <- str_in_spec. unfold resample_data, __init__. simpl.
  destruct (str_in "kbm" path); repeat split; try done.
Qed.

End Dispatch.

Lemma length_concat_const {A} (k : nat) (ls : list (list A)) :
  Forall (fun l => length l = k) ls -> length (concat ls) = length ls * k.
Proof.
  induction 1 as [|l ls Hl _ IH]; [done|].
  simpl. rewrite length_app, Hl, IH. lia.
Qed.

Section Tables.

Context `{PandasIO}.
Implicit Types (w : gmap string node) (df : DataFrame) (self : Resampler).

Lemma table_lines_rows (dfs : list DataFrame) (n : Z) :
  table_lines dfs n
  = map csv_line (concat (map (fun df => summary_rows df n) dfs)).
Proof.
  unfold table_lines, recording_lines.
  by rewrite concat_map, map_map.
Qed.

(** The bearing strategy through [resample_data] when every recording of
    the directory loads with four columns. *)
Lemma resample_data_bearing_ok self n w names dfs :
  dataset self = bearing ->
  (0 < n)%Z ->
  ~ is_dir w (resampled_path self n) ->
  w !! data_path self = Some (Dir names) ->
  Forall2 (fun name df =>
             loads w (data_path self +:+ "/" +:+ name) tab false df
             /\ columns df = 4) names dfs ->
  resample_data self n w
  = (append_lines (resampled_path self n) (table_lines dfs n)
                  (delete (resampled_path self n) w), inr tt).
Proof.
  intros Hbearing Hn Hw Hdir Hall.
  rewrite resample_data_run, Hbearing by done.
  rewrite (resample_data_bearing_run _ _ names)
    by by rewrite lookup_delete_ne by (symmetry; apply data_path_ne).
  apply bearing_loop_ok; [done|apply not_dir_delete|].
  eapply Forall2_impl; [exact Hall|]. intros name df [Hload Hcols]. split.
  - apply loads_delete; [apply recording_path_ne|done].
  - unfold width_ok. rewrite Hcols. reflexivity.
Qed.


(** Claim C6, as the code has it.  The outcome and the output table are a
    function of the file system outside the output table, directory
    enumeration included: two file systems that agree there give the same
    run, in either strategy.  In the bearing strategy the recordings are
    taken in the order [os.scandir] enumerates them: the table is the lines
    of the first enumerated recording, then those of the second, and so
    on. *)
Theorem output_follows_enumeration self n w :
  ~ is_dir w (resampled_path self n) ->
  (forall w2,
      ~ is_dir w2 (resampled_path self n) ->
      delete (resampled_path self n) w2 = delete (resampled_path self n) w ->
      resample_data self n w2 = resample_data self n w)
  /\ (forall names dfs,
        dataset self = bearing ->
        (0 < n)%Z ->
        w !! data_path self = Some (Dir names) ->
        Forall2 (fun name df =>
                   loads w (data_path self +:+ "/" +:+ name) tab false df
                   /\ columns df = 4) names dfs ->
        file_text (resample_data self n w).1 (resampled_path self n)
        = String.concat "" (concat (map (fun df => recording_lines df n) dfs))).
Proof.
  intros Hw. split.
  - intros w2 Hw2 Hsame. by rewrite !resample_data_run, Hsame.
  - intros names dfs Hbearing Hn Hdir Hall.
    rewrite (resample_data_bearing_ok self n w names dfs) by done.
    simpl. by rewrite file_text_append_lines, file_text_delete.
Qed.


End Tables.

(** ** The sampling rate in the KBM strategy *)

Lemma kbm_measurements_lens (df : DataFrame) (sampling_rate : Z) ms :
  (0 < sampling_rate)%Z ->
  kbm_measurements df sampling_rate = inr ms ->
  exists len' : nat,
    Z.of_nat len'
    = (Z.of_nat (pd.len df) - Z.of_nat (pd.len df) mod sampling_rate)%Z
    /\ (0 < Z.of_nat len' / 4000)%Z
    /\ length ms = Z.to_nat (Z.of_nat len' / 4000)
    /\ map pd.len ms
       = tail (np.section_sizes len' (Z.to_nat (Z.of_nat len' / 4000))).
Proof.
  intros HR Hms.
  destruct (Z.eq_dec (Z.of_nat (pd.len df) mod sampling_rate)%Z 0%Z) as [Hmod|Hmod].
  { rewrite kbm_measurements_multiple in Hms by (done || lia). done. }
  unfold kbm_measurements in Hms.
  rewrite kbm_truncate_partial in Hms by done.
  set (r := (Z.of_nat (pd.len df) mod sampling_rate)%Z) in *.
  set (df' := mkDataFrame _ _) in Hms.
  pose proof (Z.mod_pos_bound (Z.of_nat (pd.len df)) sampling_rate HR) as Hr.
  pose proof (Z.mod_le (Z.of_nat (pd.len df)) sampling_rate ltac:(lia) HR) as Hle.
  fold r in Hr, Hle.
  assert (pd.len df' = pd.len df - Z.to_nat r) as Hlen.
  { unfold df', pd.len. simpl. rewrite length_take. unfold pd.len in Hle. lia. }
  exists (pd.len df').
  rewrite Z.quot_div_nonneg in Hms by lia.
  destruct (Z.leb_spec (Z.of_nat (pd.len df') / 4000) 0) as [Hc|Hc].
  { by rewrite pd_array_split_nonpositive in Hms. }
  rewrite windows_pos in Hms by done. injection Hms as <-.
  repeat split.
  - lia.
  - done.
  - by apply windows_length.
  - by apply windows_lens.
Qed.

Lemma kbm_measurements_chunks (df : DataFrame) (sampling_rate : Z) ms :
  (0 < sampling_rate)%Z ->
  kbm_measurements df sampling_rate = inr ms ->
  let len' := (Z.of_nat (pd.len df)
               - Z.of_nat (pd.len df) mod sampling_rate)%Z in
  (0 < len' / 4000)%Z
  /\ (0 < len' / sampling_rate)%Z
  /\ len' = (sampling_rate * (len' / sampling_rate))%Z
  /\ Z.of_nat (length ms) = (len' / 4000)%Z
  /\ (Forall (fun m => Z.of_nat (pd.len m) = sampling_rate) ms
      <-> (len' / 4000 = len' / sampling_rate)%Z).
Proof.
  intros HR Hms len'.
  destruct (kbm_measurements_lens df sampling_rate ms HR Hms)
    as (l & Hl & Hcnt & Hlength & Hlens).
  fold len' in Hl. rewrite <- Hl.
  assert (len' = sampling_rate * (Z.of_nat (pd.len df) / sampling_rate))%Z
    as Hmul.
  { unfold len'. rewrite Z.mod_eq by lia. lia. }
  assert (Z.of_nat l / sampling_rate
          = Z.of_nat (pd.len df) / sampling_rate)%Z as Hdiv.
  { rewrite Hl, Hmul, Z.mul_comm. apply Z.div_mul. lia. }
  assert (0 < Z.of_nat l / sampling_rate)%Z as Hpos.
  { apply Z.div_str_pos. split; [lia|].
    pose proof (Z.mul_div_le (Z.of_nat l) 4000 ltac:(lia)) as Hfloor.
    assert (Z.of_nat l
            = sampling_rate * (Z.of_nat (pd.len df) / sampling_rate))%Z
      as Hl2 by congruence.
    generalize dependent (Z.of_nat (pd.len df) / sampling_rate)%Z.
    intros k _ _ Hl2.
    assert (4000 <= Z.of_nat l)%Z as Hbig by lia.
    clear -HR Hbig Hl2.
    assert (0 < k)%Z by nia. nia. }
  repeat split.
  - done.
  - done.
  - rewrite Hdiv, Hl. exact Hmul.
  - lia.
  - intros Hall.
    assert (sum_list (map pd.len ms) = length ms * Z.to_nat sampling_rate)
      as Hsum.
    { clear -Hall HR. induction Hall as [|m ms Hm _ IH]; [done|].
      simpl. rewrite IH. unfold id. lia. }
    rewrite Hlens, sum_section_sizes, Hlength in Hsum by lia.
    rewrite Hdiv.
    assert (Z.of_nat l
            = Z.of_nat l / 4000 * sampling_rate)%Z as Hprod by lia.
    rewrite Hl, Hmul in Hprod. nia.
  - intros Heq. rewrite Hdiv in Heq.
    assert (l = Z.to_nat sampling_rate * Z.to_nat (Z.of_nat l / 4000))
      as Hl' by (rewrite Heq; nia).
    rewrite Hl' in Hlens at 1.
    rewrite section_sizes_even in Hlens by lia.
    apply Forall_forall. intros m Hm.
    apply list_elem_of_In, (in_map pd.len) in Hm. rewrite Hlens in Hm.
    apply repeat_spec in Hm. lia.
Qed.

(** Off the exact multiples the truncation law holds for the default rate:
    [L mod 4000] rows are dropped and [L / 4000] measurements of 4000 rows
    are processed. *)
Lemma kbm_truncation_law_partial (df : DataFrame) ms :
  kbm_measurements df 4000 = inr ms ->
  Z.of_nat (length ms) = (Z.of_nat (pd.len df) / 4000)%Z
  /\ Forall (fun m => pd.len m = 4000) ms.
Proof.
  intros Hms.
  pose proof (kbm_measurements_chunks df 4000 ms ltac:(lia) Hms) as Hchunks.
  cbv zeta in Hchunks. destruct Hchunks as (_ & _ & _ & Hlength & Hiff).
  split.
  - rewrite Hlength.
    replace (Z.of_nat (pd.len df) - Z.of_nat (pd.len df) mod 4000)%Z
      with (Z.of_nat (pd.len df) / 4000 * 4000)%Z
      by (rewrite Z.mod_eq by lia; lia).
    apply Z.div_mul. lia.
  - eapply Forall_impl; [by apply Hiff|]. intros m Hm. simpl in Hm. lia.
Qed.

Section SamplingRate.

Context `{PandasIO}.
Implicit Types (w : gmap string node) (df : DataFrame) (self : Resampler).

(** Claim C10, as the code has it.  Past the guard the sampling rate enters
    [resample_data_kbm] through the truncation amount only: two rates that
    pass the guard and leave the same remainder give the same run; the table
    read is [<data_path>_4000.csv], and without it the run fails; the
    truncated table of [L'] rows is split into [L' / 4000] measurements.
    For a rate other than 4000 the measurements are chunks of
    [sampling_rate] rows exactly when [L' / 4000 = L' / sampling_rate],
    which never holds for a rate below 4000. *)
Theorem sampling_rate_role self n sampling_rate w :
  n <> sampling_rate ->
  (0 < sampling_rate)%Z ->
  sampling_rate <> 4000%Z ->
  ~ is_dir w (resampled_path self n) ->
  (forall rate2,
      n <> rate2 ->
      (forall df,
          loads (delete (resampled_path self n) w)
                (data_path self +:+ "_4000.csv") comma true df ->
          py_mod (Z.of_nat (pd.len df)) rate2
          = py_mod (Z.of_nat (pd.len df)) sampling_rate) ->
      resample_data_kbm self n rate2 w
      = resample_data_kbm self n sampling_rate w)
  /\ ((forall df, ~ loads (delete (resampled_path self n) w)
                     (data_path self +:+ "_4000.csv") comma true df) ->
      exists e, resample_data_kbm self n sampling_rate w
                = (delete (resampled_path self n) w, inl e))
  /\ (forall df ms,
        kbm_measurements df sampling_rate = inr ms ->
        let len' := (Z.of_nat (pd.len df)
                     - Z.of_nat (pd.len df) mod sampling_rate)%Z in
        Z.of_nat (length ms) = (len' / 4000)%Z
        /\ (Forall (fun m => Z.of_nat (pd.len m) = sampling_rate) ms
            <-> (len' / 4000 = len' / sampling_rate)%Z)
        /\ ((sampling_rate < 4000)%Z ->
            ~ Forall (fun m => Z.of_nat (pd.len m) = sampling_rate) ms)).
Proof.
  intros Hne HR H4000 Hw. split; [|split].
  - intros rate2 Hne2 Hmod.
    rewrite !resample_data_kbm_run by done.
    destruct (read_csv_cases (delete (resampled_path self n) w)
                (data_path self +:+ "_4000.csv") comma true)
      as [[e ->]|(df & Hload & ->)]; [done|].
    unfold kbm_measurements, kbm_truncate. by rewrite (Hmod df Hload).
  - intros Hnone.
    destruct (resample_data_kbm_cases self n sampling_rate w Hne Hw)
      as [[e ->]|(df & ms & Hload & _)]; [by exists e|].
    by destruct (Hnone df).
  - intros df ms Hms len'.
    destruct (kbm_measurements_chunks df sampling_rate ms HR Hms)
      as (Hcnt & Hpos & Hmul & Hlength & Hiff).
    fold len' in Hcnt, Hpos, Hmul, Hlength, Hiff.
    repeat split; [done|apply Hiff|apply Hiff|].
    intros Hlt Hall. apply Hiff in Hall.
    assert (len' / 4000 < len' / sampling_rate)%Z; [|lia].
    apply Z.div_lt_upper_bound; [lia|]. nia.
Qed.

End SamplingRate.

(** * Further properties of the resampler *)

(** ** More windows than rows *)

Lemma section_sizes_sparse (Ntotal Nsections : nat) :
  Ntotal < Nsections ->
  tail (np.section_sizes Ntotal Nsections)
  = repeat 1 Ntotal ++ repeat 0 (Nsections - Ntotal).
Proof.
  intros Hlt. unfold np.section_sizes. simpl.
  by rewrite Nat.div_small, Nat.mod_small.
Qed.

Lemma chunks_zeros {A} (k : nat) (l : list A) :
  chunks (repeat 0 k) l = repeat [] k.
Proof.
  induction k as [|k IH]; [done|].
  simpl. by rewrite take_0, drop_0, IH.
Qed.

Lemma chunks_singletons {A} (k : nat) (l : list A) :
  chunks (repeat 1 (length l) ++ repeat 0 k) l
  = map (fun x => [x]) l ++ repeat [] k.
Proof.
  induction l as [|x l IH]; simpl.
  - apply chunks_zeros.
  - rewrite drop_0, take_0. by rewrite IH.
Qed.

Lemma map_seq_const {A} (x : A) (start len : nat) :
  map (fun _ => x) (seq start len) = repeat x len.
Proof. revert start; induction len as [|len IH]; intros start; simpl; congruence. Qed.

Lemma map_repeat_const {A B} (f : A -> B) (x : A) (n : nat) :
  map f (repeat x n) = repeat (f x) n.
Proof. induction n as [|n IH]; simpl; congruence. Qed.

Lemma mean_abs_empty (cols : nat) :
  pd.mean (pd.abs (mkDataFrame cols [])) = repeat None cols.
Proof. unfold pd.mean, pd.abs, pd.column. simpl. apply map_seq_const. Qed.

(** Property X1. When the window count exceeds the number of rows, [np.array_split]
    still succeeds: each row is a window of its own, in order, and the
    remaining windows are empty; the summary row of an empty window is NaN in
    every column. *)
Theorem more_windows_than_rows (df : DataFrame) (N : Z) :
  (Z.of_nat (pd.len df) < N)%Z ->
  pd.array_split df N
  = inr (map (fun r => mkDataFrame (columns df) [r]) (rows df)
         ++ repeat (mkDataFrame (columns df) []) (Z.to_nat N - pd.len df))
  /\ summary_rows df N
     = map (fun r => pd.mean (pd.abs (mkDataFrame (columns df) [r]))) (rows df)
       ++ repeat (repeat None (columns df)) (Z.to_nat N - pd.len df).
Proof.
  intros Hlt.
  assert (pd.array_split df N
          = inr (map (fun r => mkDataFrame (columns df) [r]) (rows df)
                 ++ repeat (mkDataFrame (columns df) [])
                           (Z.to_nat N - pd.len df))) as Hsplit.
  { rewrite pd_array_split_pos by lia.
    rewrite section_sizes_sparse by lia.
    unfold pd.len. rewrite chunks_singletons.
    by rewrite map_app, map_map, map_repeat_const. }
  split; [exact Hsplit|].
  unfold summary_rows, windows. rewrite Hsplit.
  rewrite map_app, map_map, map_repeat_const. by rewrite mean_abs_empty.
Qed.

(** ** When the KBM strategy finds measurements *)

(** Property X2. For a positive sampling rate the truncation and the split into
    measurements succeed exactly when the length [L] of the base table is
    not a multiple of the rate and at least 4000 rows are left after the
    truncation; there are then [(L - L mod rate) / 4000] measurements.  In
    every other case (an exact multiple, or fewer than 4000 rows left)
    [ValueError] is raised. *)
Theorem kbm_measurements_outcome (df : DataFrame) (sampling_rate : Z) :
  (0 < sampling_rate)%Z ->
  let len' := (Z.of_nat (pd.len df)
               - Z.of_nat (pd.len df) mod sampling_rate)%Z in
  ((Z.of_nat (pd.len df) mod sampling_rate <> 0)%Z /\ (4000 <= len')%Z ->
   exists ms, kbm_measurements df sampling_rate = inr ms
              /\ Z.of_nat (length ms) = (len' / 4000)%Z)
  /\ ((Z.of_nat (pd.len df) mod sampling_rate = 0)%Z \/ (len' < 4000)%Z ->
      kbm_measurements df sampling_rate = inl ValueError).
Proof.
  intros HR len'. split.
  - intros [Hmod Hbig].
    unfold kbm_measurements. rewrite kbm_truncate_partial by done.
    set (df' := mkDataFrame _ _).
    pose proof (Z.mod_pos_bound (Z.of_nat (pd.len df)) sampling_rate HR) as Hr.
    pose proof (Z.mod_le (Z.of_nat (pd.len df)) sampling_rate ltac:(lia) HR) as Hle.
    assert (Z.of_nat (pd.len df') = len') as Hlen.
    { unfold df', len'. unfold pd.len in *. simpl. rewrite length_take. lia. }
    rewrite Hlen, Z.quot_div_nonneg by lia.
    assert (0 < len' / 4000)%Z as Hcnt by (apply Z.div_str_pos; lia).
    exists (windows df' (len' / 4000)). split; [by apply windows_pos|].
    rewrite windows_length by done. lia.
  - intros [Hmod|Hsmall]; [apply kbm_measurements_multiple; lia|].
    destruct (Z.eq_dec (Z.of_nat (pd.len df) mod sampling_rate)%Z 0%Z) as [Hmod|Hmod];
      [apply kbm_measurements_multiple; lia|].
    unfold kbm_measurements. rewrite kbm_truncate_partial by done.
    set (df' := mkDataFrame _ _).
    pose proof (Z.mod_pos_bound (Z.of_nat (pd.len df)) sampling_rate HR) as Hr.
    pose proof (Z.mod_le (Z.of_nat (pd.len df)) sampling_rate ltac:(lia) HR) as Hle.
    assert (Z.of_nat (pd.len df') = len') as Hlen.
    { unfold df', len'. unfold pd.len in *. simpl. rewrite length_take. lia. }
    rewrite Hlen, Z.quot_div_nonneg by lia.
    apply pd_array_split_nonpositive.
    rewrite Z.div_small by lia. lia.
Qed.

(** ** Edge cases and failures of a run *)

Section Edges.

Context `{PandasIO}.
Implicit Types (w : gmap string node) (df : DataFrame) (self : Resampler).

Lemma for_app {A} (xs ys : list A) (body : A -> M unit) w :
  for_ (xs ++ ys) body w
  = match for_ xs body w with
    | (w', inl e) => (w', inl e)
    | (w', inr _) => for_ ys body w'
    end.
Proof.
  revert w; induction xs as [|x xs IH]; intros w; [done|].
  rewrite <- app_comm_cons, !for_cons.
  destruct (body x w) as [w' [e|[]]]; [done|]. apply IH.
Qed.

(** Property X3. An empty directory: the run succeeds, and afterwards there is no
    output table at all (the old one is removed, no empty file is
    created), whatever the window count is. *)
Theorem bearing_empty_directory self n w :
  dataset self = bearing ->
  ~ is_dir w (resampled_path self n) ->
  w !! data_path self = Some (Dir []) ->
  resample_data self n w = (delete (resampled_path self n) w, inr tt)
  /\ (resample_data self n w).1 !! resampled_path self n = None.
Proof.
  intros Hbearing Hw Hdir.
  assert (resample_data self n w = (delete (resampled_path self n) w, inr tt))
    as Hrun.
  { rewrite resample_data_run, Hbearing by done.
    by rewrite (resample_data_bearing_run _ _ [])
      by by rewrite lookup_delete_ne by (symmetry; apply data_path_ne). }
  split; [done|]. rewrite Hrun. apply lookup_delete_eq.
Qed.

(** Property X4. A window count that is zero or negative: [np.array_split] raises
    [ValueError] on the first recording (bearing) or the first measurement
    (KBM).  Nothing is written, and the output table that was there before
    the run has been removed. *)
Theorem nonpositive_window_count self n w :
  (n <= 0)%Z ->
  ~ is_dir w (resampled_path self n) ->
  (forall name names df,
      dataset self = bearing ->
      w !! data_path self = Some (Dir (name :: names)) ->
      loads w (data_path self +:+ "/" +:+ name) tab false df ->
      resample_data self n w
      = (delete (resampled_path self n) w, inl ValueError))
  /\ (forall df ms,
        dataset self = kbm ->
        loads w (data_path self +:+ "_4000.csv") comma true df ->
        kbm_measurements df 4000 = inr ms ->
        resample_data self n w
        = (delete (resampled_path self n) w, inl ValueError)).
Proof.
  intros Hn Hw. split.
  - intros name names df Hbearing Hdir Hload.
    rewrite resample_data_run, Hbearing by done.
    rewrite (resample_data_bearing_run _ _ (name :: names))
      by by rewrite lookup_delete_ne by (symmetry; apply data_path_ne).
    rewrite for_cons. cbv beta. rewrite bind_run.
    rewrite (read_csv_loads _ _ _ _ df)
      by (apply loads_delete; [apply recording_path_ne|done]).
    rewrite bind_run. by rewrite pd_array_split_nonpositive.
  - intros df ms Hkbm Hload Hms.
    assert (n <> 4000%Z) as Hne by lia.
    rewrite resample_data_run, Hkbm by done.
    rewrite resample_data_kbm_run by (done || apply not_dir_delete).
    rewrite delete_delete_eq.
    rewrite (read_csv_loads _ _ _ _ df), Hms.
    + pose proof (kbm_measurements_nonempty _ _ _ Hms) as Hnil.
      destruct ms as [|m ms]; [done|].
      rewrite for_cons. cbv beta. rewrite bind_run.
      by rewrite pd_array_split_nonpositive.
    + apply loads_delete; [|done].
      intros Heq. symmetry in Heq. by apply resampled_path_base in Heq.
Qed.

(** Property X5. The KBM strategy never leaves a partial table: when a run through
    [resample_data] raises, whatever the exception, the output table does
    not exist afterwards and nothing else has changed. *)
Theorem kbm_failure_leaves_no_table self n w e :
  dataset self = kbm ->
  ~ is_dir w (resampled_path self n) ->
  (resample_data self n w).2 = inl e ->
  (resample_data self n w).1 = delete (resampled_path self n) w.
Proof.
  intros Hkbm Hw. rewrite resample_data_run, Hkbm by done.
  destruct (Z.eq_dec n 4000%Z) as [->|Hne].
  { by rewrite resample_data_kbm_guard. }
  destruct (resample_data_kbm_cases self n 4000
              (delete (resampled_path self n) w) Hne
              (not_dir_delete _ _)) as [[e' ->]|(df & ms & _ & _ & _ & _ & ->)].
  - intros _. simpl. apply delete_delete_eq.
  - done.
Qed.

(** Property X6. The bearing strategy does leave a partial table: when the
    recordings before a recording that cannot be loaded are fine, the run
    raises at that recording and the output table holds the rows of the
    earlier recordings. *)
Theorem bearing_failure_keeps_earlier_rows self n w pre bad post dfs :
  dataset self = bearing ->
  (0 < n)%Z ->
  ~ is_dir w (resampled_path self n) ->
  w !! data_path self = Some (Dir (pre ++ bad :: post)) ->
  Forall2 (fun name df =>
             loads w (data_path self +:+ "/" +:+ name) tab false df
             /\ columns df = 4) pre dfs ->
  (forall df, ~ loads w (data_path self +:+ "/" +:+ bad) tab false df) ->
  exists e,
    resample_data self n w
    = (append_lines (resampled_path self n) (table_lines dfs n)
                    (delete (resampled_path self n) w), inl e).
Proof.
  intros Hbearing Hn Hw Hdir Hall Hbad.
  rewrite resample_data_run, Hbearing by done.
  rewrite (resample_data_bearing_run _ _ (pre ++ bad :: post))
    by by rewrite lookup_delete_ne by (symmetry; apply data_path_ne).
  rewrite for_app.
  rewrite (bearing_loop_ok self n pre dfs); [|done|apply not_dir_delete|].
  - rewrite for_cons.
    set (w1 := append_lines _ _ _).
    destruct (bearing_file_cases self n bad w1) as [[e He]|(df & Hload & _)].
    + apply append_lines_not_dir, not_dir_delete.
    + exists e. cbv beta. by rewrite He.
    + destruct (Hbad df).
      apply loads_append_lines in Hload; [|apply recording_path_ne].
      by apply loads_delete in Hload; [|apply recording_path_ne].
  - eapply Forall2_impl; [exact Hall|]. intros name df [Hload Hcols]. split.
    + apply loads_delete; [apply recording_path_ne|done].
    + unfold width_ok. rewrite Hcols. reflexivity.
Qed.

(** Property X7. A run changes nothing but the table of its own window count: every
    other path, be it a recording, the directory, the base table or the
    table of another window count, is as before, whether the run succeeds
    or raises. *)
Theorem resample_data_changes_only_its_table self n w path :
  path <> resampled_path self n ->
  (resample_data self n w).1 !! path = w !! path.
Proof.
  intros Hpath.
  destruct (is_dir_dec w (resampled_path self n)) as [Hdir|Hw].
  { by rewrite resample_data_dir. }
  rewrite resample_data_run by done.
  destruct (dataset self).
  - destruct (Z.eq_dec n 4000%Z) as [->|Hne].
    { rewrite resample_data_kbm_guard. simpl. by apply lookup_delete_ne. }
    destruct (resample_data_kbm_cases self n 4000
                (delete (resampled_path self n) w) Hne
                (not_dir_delete _ _)) as [[e ->]|(df & ms & _ & _ & _ & _ & ->)];
      simpl.
    + by rewrite !lookup_delete_ne.
    + by rewrite lookup_append_lines_ne, !lookup_delete_ne.
  - destruct (resample_data_bearing_frame self n
                (delete (resampled_path self n) w) (not_dir_delete _ _))
      as [lines ->].
    by rewrite lookup_append_lines_ne, lookup_delete_ne.
Qed.

End Edges.

(** ** The default batch *)

Section DefaultBatch.

Context `{PandasIO}.
Implicit Types (w : gmap string node) (df : DataFrame) (self : Resampler).

Lemma resampled_path_inj self (n m : Z) :
  resampled_path self n = resampled_path self m -> n = m.
Proof.
  unfold resampled_path. intros Heq.
  apply (inj (String.append (data_path self))) in Heq.
  apply (inj (String.append "_")) in Heq.
  apply string_app_inv_r in Heq.
  by apply (inj pretty) in Heq.
Qed.

Lemma resample_default_for self :
  resample_default self = for_ default_sizes (resample_data self).
Proof. reflexivity. Qed.

Lemma is_dir_lookup w1 w2 path :
  w1 !! path = w2 !! path -> is_dir w1 path <-> is_dir w2 path.
Proof. unfold is_dir. by intros ->. Qed.

Lemma for_sizes_frame self (sizes : list Z) w path :
  (forall n, In n sizes -> path <> resampled_path self n) ->
  (for_ sizes (resample_data self) w).1 !! path = w !! path.
Proof.
  revert w; induction sizes as [|n sizes IH]; intros w Hpath; [done|].
  rewrite for_cons.
  pose proof (resample_data_changes_only_its_table self n w path
                (Hpath n (or_introl eq_refl))) as Hstep.
  destruct (resample_data self n w) as [w1 [e|[]]]; [done|].
  simpl in Hstep. rewrite <- Hstep. apply IH.
  intros m Hm. apply Hpath. by right.
Qed.

Lemma for_sizes_tables self (lines : Z -> list string)
      (ok : gmap string node -> Prop) (sizes : list Z) w :
  NoDup sizes ->
  (forall n w l, In n sizes -> ok w ->
     ok (append_lines (resampled_path self n) l
                      (delete (resampled_path self n) w))) ->
  (forall n w, In n sizes -> ok w ->
     resample_data self n w
     = (append_lines (resampled_path self n) (lines n)
                     (delete (resampled_path self n) w), inr tt)) ->
  ok w ->
  (for_ sizes (resample_data self) w).2 = inr tt
  /\ forall n, In n sizes ->
       file_text (for_ sizes (resample_data self) w).1 (resampled_path self n)
       = String.concat "" (lines n).
Proof.
  intros Hnodup Hclosed Hrun. revert w.
  induction sizes as [|n sizes IH]; intros w Hok; [by split|].
  apply NoDup_cons in Hnodup as [Hfresh Hnodup].
  rewrite for_cons, (Hrun n w) by (done || by left).
  set (w1 := append_lines _ _ _).
  destruct IH with (w := w1) as [Hres Htexts].
  - done.
  - intros m w' l Hm. apply Hclosed. by right.
  - intros m w' Hm. apply Hrun. by right.
  - apply Hclosed; [by left|done].
  - split; [done|]. intros m [<-|Hm]; [|by apply Htexts].
    unfold file_text. rewrite for_sizes_frame.
    + fold (file_text w1 (resampled_path self n)). unfold w1.
      by rewrite file_text_append_lines, file_text_delete.
    + intros m Hm Heq. apply resampled_path_inj in Heq. subst.
      apply Hfresh. by apply list_elem_of_In.
Qed.

Lemma default_sizes_spec (n : Z) :
  In n default_sizes -> (0 < n)%Z /\ n <> 4000%Z.
Proof. unfold default_sizes. simpl. intros Hn. lia. Qed.

Lemma default_sizes_NoDup : NoDup default_sizes.
Proof.
  unfold default_sizes.
  repeat (apply NoDup_cons_2; [rewrite list_elem_of_In; simpl; lia|]).
  apply NoDup_nil_2.
Qed.



(** Property X10. On a KBM data set whose base table loads, splits into measurements
    and has [num_features] columns, the batch succeeds and each of the five
    tables holds the lines of the measurements for its window count; the
    guard against the size 4000 never fires and the base table is read
    afresh by every run. *)
Theorem resample_default_kbm_tables self w df ms :
  dataset self = kbm ->
  (forall n, In n default_sizes -> ~ is_dir w (resampled_path self n)) ->
  loads w (data_path self +:+ "_4000.csv") comma true df ->
  kbm_measurements df 4000 = inr ms ->
  width_ok df (num_features self) = true ->
  (resample_default self w).2 = inr tt
  /\ forall n, In n default_sizes ->
       file_text (resample_default self w).1 (resampled_path self n)
       = String.concat "" (table_lines ms n).
Proof.
  intros Hkbm Hnodir Hload Hms Hwidth. rewrite resample_default_for.
  assert (forall n, In n default_sizes ->
            data_path self +:+ "_4000.csv" <> resampled_path self n) as Hbase.
  { intros n Hn Heq. symmetry in Heq. apply resampled_path_base in Heq.
    apply default_sizes_spec in Hn. lia. }
  apply (for_sizes_tables self (fun n => table_lines ms n)
           (fun w' =>
              loads w' (data_path self +:+ "_4000.csv") comma true df
              /\ forall n, In n default_sizes ->
                   ~ is_dir w' (resampled_path self n))).
  - apply default_sizes_NoDup.
  - intros n w' l Hn (Hload' & Hnodir'). split.
    + apply loads_append_lines; [by apply Hbase|].
      by apply loads_delete; [by apply Hbase|].
    + intros m Hm.
      destruct (Z.eq_dec m n) as [->|Hmn].
      * apply append_lines_not_dir, not_dir_delete.
      * intros Hd. apply (Hnodir' m Hm).
        eapply is_dir_lookup; [|exact Hd].
        symmetry. rewrite lookup_append_lines_ne, lookup_delete_ne; try done;
          intros Heq; apply resampled_path_inj in Heq; congruence.
  - intros n w' Hn (Hload' & Hnodir').
    rewrite resample_data_run, Hkbm by by apply Hnodir'.
    rewrite (resample_data_kbm_ok self n 4000 _ df ms).
    + by rewrite delete_delete_eq.
    + apply default_sizes_spec in Hn. lia.
    + apply not_dir_delete.
    + rewrite delete_delete_eq. by apply loads_delete; [by apply Hbase|].
    + done.
    + by apply default_sizes_spec.
    + done.
  - done.
Qed.

End DefaultBatch.

(** ** Lines and separators of the output table *)

Lemma count_char_app (c : ascii) (s1 s2 : string) :
  count_char c (s1 +:+ s2) = count_char c s1 + count_char c s2.
Proof.
  induction s1 as [|d s1 IH]; [done|].
  rewrite string_app_cons. simpl. rewrite IH. lia.
Qed.

Lemma count_char_join (c : ascii) (sep : string) (fields : list string) :
  Forall (fun f => count_char c f = 0) fields ->
  count_char c (String.concat sep fields)
  = (length fields - 1) * count_char c sep.
Proof.
  induction 1 as [|f fields Hf Hfields IH]; [done|].
  destruct fields as [|f' fields]; [simpl; lia|].
  change (String.concat sep (f :: f' :: fields))
    with (f +:+ sep +:+ String.concat sep (f' :: fields)).
  rewrite !count_char_app, Hf, IH. simpl. lia.
Qed.

Lemma count_char_lines (c : ascii) (k : nat) (lines : list string) :
  Forall (fun line => count_char c line = k) lines ->
  count_char c (String.concat "" lines) = length lines * k.
Proof.
  induction 1 as [|line lines Hline _ IH]; [done|].
  rewrite concat_lines_cons, count_char_app, Hline, IH. simpl. lia.
Qed.

Section Lines.

Context `{PandasIO}.
Implicit Types (w : gmap string node) (df : DataFrame) (self : Resampler).

Lemma count_char_csv_line (c : ascii) (row : list (option Q)) :
  (forall q, count_char c (float_repr q) = 0) ->
  count_char c (csv_line row)
  = (length row - 1) * count_char c ";" + count_char c newline.
Proof.
  intros Hrepr. unfold csv_line.
  rewrite count_char_app, count_char_join, length_map; [done|].
  apply Forall_map, Forall_forall. intros [q|] _; simpl; [apply Hrepr|done].
Qed.

(** Property X11. When no number is printed with a line break or a semicolon in it,
    the output table of a bearing run has exactly one line per window of
    every recording, [F * N] line breaks in all, and three semicolons on
    every line. *)
Theorem bearing_table_line_count self n w names dfs :
  (forall q, count_char (ascii_of_nat 10) (float_repr q) = 0) ->
  (forall q, count_char ";" (float_repr q) = 0) ->
  dataset self = bearing ->
  (1 <= n)%Z ->
  ~ is_dir w (resampled_path self n) ->
  w !! data_path self = Some (Dir names) ->
  Forall2 (fun name df =>
             loads w (data_path self +:+ "/" +:+ name) tab false df
             /\ columns df = 4) names dfs ->
  count_char (ascii_of_nat 10)
             (file_text (resample_data self n w).1 (resampled_path self n))
  = length names * Z.to_nat n
  /\ count_char ";"
                (file_text (resample_data self n w).1 (resampled_path self n))
     = length names * Z.to_nat n * 3.
Proof.
  intros Hnl Hsemi Hbearing Hn Hw Hdir Hall.
  rewrite (resample_data_bearing_ok self n w names dfs) by (done || lia).
  simpl. rewrite file_text_append_lines, file_text_delete.
  change ("" +:+ ?s) with s. rewrite table_lines_rows.
  set (table := concat (map (fun df => summary_rows df n) dfs)).
  assert (length table = length names * Z.to_nat n) as Hlen.
  { unfold table. rewrite (length_concat_const (Z.to_nat n)).
    - by rewrite length_map, (Forall2_length _ _ _ Hall).
    - apply Forall_map, Forall_forall. intros df _. simpl.
      apply summary_rows_length. lia. }
  assert (Forall (fun row => length row = 4) table) as Hwidth.
  { unfold table. apply Forall_concat, Forall_map.
    apply (Forall2_Forall_r _ _ _ _ Hall), Forall_forall.
    intros name _ df [_ Hcols]. simpl. rewrite <- Hcols.
    apply summary_rows_width. }
  split.
  - rewrite (count_char_lines _ 1), length_map; [lia|].
    apply Forall_map. eapply Forall_impl; [exact Hwidth|].
    intros row Hrow. simpl. by rewrite count_char_csv_line, Hrow.
  - rewrite (count_char_lines _ 3), length_map; [lia|].
    apply Forall_map. eapply Forall_impl; [exact Hwidth|].
    intros row Hrow. simpl. by rewrite count_char_csv_line, Hrow.
Qed.

End Lines.

(** * Properties of the data cleaner *)

(** ** The seconds of a time stamp *)

Lemma str_split_cons (sep : ascii) (s : string) :
  exists piece pieces, cleaner.str_split sep s = piece :: pieces.
Proof.
  induction s as [|c s (piece & pieces & IH)]; simpl; [by eexists _, _|].
  destruct (Ascii.eqb c sep); [by eexists _, _|].
  rewrite IH. by eexists _, _.
Qed.

Lemma str_split_join (sep : ascii) (s : string) :
  String.concat (String sep "") (cleaner.str_split sep s) = s.
Proof.
  induction s as [|c s IH]; [done|]. simpl.
  destruct (str_split_cons sep s) as (piece & pieces & Hsplit).
  rewrite Hsplit in *.
  destruct (Ascii.eqb_spec c sep) as [->|Hc].
  - change (String.concat (String sep "") ("" :: piece :: pieces))
      with ("" +:+ String sep "" +:+ String.concat (String sep "") (piece :: pieces)).
    by rewrite IH.
  - destruct pieces as [|piece' pieces]; simpl in *; [by rewrite IH|].
    rewrite string_app_cons. by rewrite IH.
Qed.

Lemma str_split_pieces (sep : ascii) (s : string) :
  Forall (fun piece => count_char sep piece = 0) (cleaner.str_split sep s).
Proof.
  induction s as [|c s IH]; simpl; [by repeat constructor|].
  destruct (Ascii.eqb_spec c sep) as [->|Hc]; [by constructor|].
  destruct (str_split_cons sep s) as (piece & pieces & Hsplit).
  rewrite Hsplit in *. inversion IH as [|? ? Hpiece Hpieces]; subst.
  constructor; [|done]. simpl.
  destruct (Ascii.eqb_spec c sep); [done|]. by rewrite Hpiece.
Qed.

Lemma str_split_length (sep : ascii) (s : string) :
  length (cleaner.str_split sep s) = count_char sep s + 1.
Proof.
  induction s as [|c s IH]; [done|]. simpl.
  destruct (Ascii.eqb c sep); simpl; [by rewrite IH|].
  destruct (str_split_cons sep s) as (piece & pieces & Hsplit).
  rewrite Hsplit in *. done.
Qed.

Lemma str_split_none (sep : ascii) (s : string) :
  count_char sep s = 0 -> cleaner.str_split sep s = [s].
Proof.
  induction s as [|c s IH]; [done|]. simpl.
  destruct (Ascii.eqb c sep); [done|]. simpl. intros Hs. by rewrite IH.
Qed.

(** Property X12. [time_sec], the function [lambda x: x.split('.')[0]] of
    [clean_data]: its result holds no dot; the time is the result followed
    by nothing or by a dot and the rest; the function leaves a time without
    a dot as it is, and applying it twice is applying it once. *)
Theorem time_sec_spec (x : string) :
  count_char "." (cleaner.time_sec x) = 0
  /\ (x = cleaner.time_sec x
      \/ exists rest, x = cleaner.time_sec x +:+ "." +:+ rest)
  /\ (count_char "." x = 0 -> cleaner.time_sec x = x)
  /\ cleaner.time_sec (cleaner.time_sec x) = cleaner.time_sec x.
Proof.
  assert (forall y, count_char "." y = 0 -> cleaner.time_sec y = y) as Hnone.
  { intros y Hy. unfold cleaner.time_sec. by rewrite str_split_none. }
  assert (count_char "." (cleaner.time_sec x) = 0) as Hdot.
  { unfold cleaner.time_sec. pose proof (str_split_pieces "." x) as Hpieces.
    destruct (cleaner.str_split "." x); [done|]. by inversion Hpieces. }
  split; [done|]. split; [|split; [apply Hnone|by apply Hnone]].
  pose proof (str_split_join "." x) as Hjoin. unfold cleaner.time_sec.
  destruct (cleaner.str_split "." x) as [|piece [|piece' pieces]].
  - by left.
  - left. by rewrite <- Hjoin.
  - right. exists (String.concat "." (piece' :: pieces)). by rewrite <- Hjoin at 1.
Qed.

(** ** Labelling *)

Section Labelling.

Context `{cleaner.LabelIO}.
Implicit Types (w : gmap string node) (self : cleaner.DataCleanerKBM)
         (df : list cleaner.Row).




End Labelling.

Section LabelRuns.

Context `{cleaner.LabelIO}.
Implicit Types (w : gmap string node) (self : cleaner.DataCleanerKBM)
         (df : list cleaner.Row).

Lemma cleaner_for_cons {A} (x : A) (xs : list A)
      (body : A -> cleaner.M unit) w :
  cleaner.for_ (x :: xs) body w
  = match body x w with
    | (w', inl e) => (w', inl e)
    | (w', inr _) => cleaner.for_ xs body w'
    end.
Proof. reflexivity. Qed.

Lemma cleaner_for_app {A} (xs ys : list A) (body : A -> cleaner.M unit) w :
  cleaner.for_ (xs ++ ys) body w
  = match cleaner.for_ xs body w with
    | (w', inl e) => (w', inl e)
    | (w', inr _) => cleaner.for_ ys body w'
    end.
Proof.
  revert w; induction xs as [|x xs IH]; intros w; [done|].
  rewrite <- app_comm_cons, !cleaner_for_cons.
  destruct (body x w) as [w' [e|[]]]; [done|]. apply IH.
Qed.

(** One file: either an exception and no change, or the labelled table
    written to its path. *)
Lemma label_file_cases self (excel : bool) (file_name : string) w :
  (exists e, cleaner.label_file self excel file_name w = (w, inl e))
  \/ (exists text,
        cleaner.label_file self excel file_name w
        = (<[cleaner.labelled_path file_name := File text]> w, inr tt)).
Proof.
  unfold cleaner.label_file, cleaner.bind, cleaner.read_csv, cleaner.lift,
    cleaner.to_csv, cleaner.ret.
  destruct (w !! (cleaner.data_path self +:+ "/" +:+ file_name))
    as [[text|entries]|]; eauto.
  destruct (cleaner.read_table text) as [df|]; eauto.
  destruct (cleaner.anomaly_timestamps self !! file_name) as [timestamps|];
    eauto.
  destruct excel.
  - destruct (mapM cleaner.strptime_excel timestamps) as [patterns|]; eauto.
    destruct (w !! cleaner.labelled_path file_name) as [[?|?]|]; eauto.
  - destruct (w !! cleaner.labelled_path file_name) as [[?|?]|]; eauto.
Qed.


(** Property X14. A file name without entry in [anomaly_timestamps]: the table is
    read first, then the lookup raises [KeyError].  The files before it in
    [file_names] have been labelled and written, nothing is written for
    this file, and the files after it are not looked at. *)
Theorem add_label_missing_key self (excel : bool) pre file_name post
        w text df :
  cleaner.file_names self = pre ++ file_name :: post ->
  (cleaner.for_ pre (cleaner.label_file self excel) w).2 = inr tt ->
  (cleaner.for_ pre (cleaner.label_file self excel) w).1
    !! (cleaner.data_path self +:+ "/" +:+ file_name) = Some (File text) ->
  cleaner.read_table text = Some df ->
  cleaner.anomaly_timestamps self !! file_name = None ->
  cleaner.add_label_kbm self excel w
  = ((cleaner.for_ pre (cleaner.label_file self excel) w).1,
     inl cleaner.KeyError).
Proof.
  intros Hnames Hpre Hfile Hread Hkey.
  unfold cleaner.add_label_kbm. rewrite Hnames, cleaner_for_app.
  destruct (cleaner.for_ pre (cleaner.label_file self excel) w)
    as [w1 [e|[]]]; [done|].
  simpl in Hfile. rewrite cleaner_for_cons.
  unfold cleaner.label_file at 1, cleaner.bind, cleaner.read_csv, cleaner.lift.
  by rewrite Hfile, Hread, Hkey.
Qed.

(** Property X15. [add_label_kbm] writes nothing but labelled tables: a path that is
    not [data/kbm_dataset/<name>_labeled.csv] for one of the file names is
    as before, whether the method returns or raises.  In particular
    [data_path] plays no part in where the tables are written. *)
Theorem add_label_writes_only_labelled self (excel : bool) w path :
  (forall name, In name (cleaner.file_names self) ->
                path <> cleaner.labelled_path name) ->
  (cleaner.add_label_kbm self excel w).1 !! path = w !! path.
Proof.
  unfold cleaner.add_label_kbm.
  generalize (cleaner.file_names self). intros names. revert w.
  induction names as [|name names IH]; intros w Hpath; [done|].
  rewrite cleaner_for_cons.
  destruct (label_file_cases self excel name w) as [[e ->]|[text ->]];
    [done|].
  rewrite IH by (intros name' Hname'; apply Hpath; by right).
  apply lookup_insert_ne. intros Heq. by apply (Hpath name (or_introl eq_refl)).
Qed.

End LabelRuns.

(** ** The table of a KBM run *)

Lemma kbm_measurements_concat (df : DataFrame) (sampling_rate : Z) ms :
  (0 < sampling_rate)%Z ->
  kbm_measurements df sampling_rate = inr ms ->
  concat (map rows ms)
  = take (pd.len df - Z.to_nat (Z.of_nat (pd.len df) mod sampling_rate))
         (rows df).
Proof.
  intros HR Hms.
  destruct (Z.eq_dec (Z.of_nat (pd.len df) mod sampling_rate)%Z 0%Z)
    as [Hmod|Hmod].
  { rewrite kbm_measurements_multiple in Hms by (done || lia). done. }
  unfold kbm_measurements in Hms. rewrite kbm_truncate_partial in Hms by done.
  set (df' := mkDataFrame _ _) in Hms.
  destruct (Z.leb_spec (Z.of_nat (pd.len df') ÷ 4000) 0) as [Hc|Hc].
  { by rewrite pd_array_split_nonpositive in Hms. }
  rewrite windows_pos in Hms by done. injection Hms as <-.
  rewrite windows_rows by done.
  assert (sum_list (tail (np.section_sizes (pd.len df')
                            (Z.to_nat (Z.of_nat (pd.len df') ÷ 4000))))
          = pd.len df') as Hsum by (apply sum_section_sizes; lia).
  rewrite concat_chunks by (rewrite Hsum; unfold pd.len; lia).
  rewrite Hsum. unfold pd.len. by rewrite firstn_all.
Qed.

Section KbmTable.

Context `{PandasIO}.
Implicit Types (w : gmap string node) (df : DataFrame) (self : Resampler).

(** Property X16. A KBM run off the exact multiples: for a base table of [L] rows,
    [L] at least 4000 and not a multiple of 4000, with [num_features]
    columns, and a window count [N >= 1] other than 4000, [resample_data]
    succeeds.  The measurements are the [L / 4000] consecutive blocks of
    4000 rows, the last [L mod 4000] rows are in none of them, and the
    output table has [L / 4000 * N] rows of [num_features] fields,
    measurement after measurement. *)
Theorem kbm_table_rows self n w df :
  dataset self = kbm ->
  (1 <= n)%Z -> n <> 4000%Z ->
  ~ is_dir w (resampled_path self n) ->
  loads w (data_path self +:+ "_4000.csv") comma true df ->
  (Z.of_nat (pd.len df) mod 4000 <> 0)%Z ->
  (4000 <= Z.of_nat (pd.len df))%Z ->
  columns df = Z.to_nat (num_features self) ->
  (0 <= num_features self)%Z ->
  exists ms,
    kbm_measurements df 4000 = inr ms
    /\ Z.of_nat (length ms) = (Z.of_nat (pd.len df) / 4000)%Z
    /\ Forall (fun m => pd.len m = 4000) ms
    /\ concat (map rows ms)
       = take (pd.len df - Z.to_nat (Z.of_nat (pd.len df) mod 4000)) (rows df)
    /\ let table := concat (map (fun m => summary_rows m n) ms) in
       resample_data self n w
       = (append_lines (resampled_path self n) (map csv_line table)
                       (delete (resampled_path self n) w), inr tt)
       /\ length table = length ms * Z.to_nat n
       /\ Forall (fun row => length row = columns df) table.
Proof.
  intros Hkbm Hn Hne Hw Hload Hmod Hbig Hcols Hfeatures.
  destruct (kbm_measurements_outcome df 4000 ltac:(lia)) as [Hsome _].
  destruct Hsome as (ms & Hms & _).
  { split; [done|].
    pose proof (Z.mod_pos_bound (Z.of_nat (pd.len df)) 4000 ltac:(lia)).
    pose proof (Z.div_mod (Z.of_nat (pd.len df)) 4000 ltac:(lia)).
    assert (1 <= Z.of_nat (pd.len df) / 4000)%Z
      by (apply Z.div_le_lower_bound; lia).
    lia. }
  destruct (kbm_truncation_law_partial df ms Hms) as [Hlength Hfull].
  exists ms. split; [done|]. split; [done|]. split; [done|].
  split; [by apply kbm_measurements_concat|].
  intros table. split; [|split].
  - rewrite resample_data_run, Hkbm by done.
    rewrite (resample_data_kbm_ok self n 4000 _ df ms); try done.
    + by rewrite delete_delete_eq, table_lines_rows.
    + apply not_dir_delete.
    + rewrite delete_delete_eq. apply loads_delete; [|done].
      intros Heq. symmetry in Heq. by apply resampled_path_base in Heq.
    + lia.
    + unfold width_ok. rewrite Hcols, Z2Nat.id, Z.eqb_refl by done.
      apply orb_true_r.
  - unfold table. rewrite (length_concat_const (Z.to_nat n)).
    + by rewrite length_map.
    + apply Forall_map, Forall_forall. intros m _. simpl.
      apply summary_rows_length. lia.
  - unfold table. apply Forall_concat, Forall_map.
    eapply Forall_impl; [by eapply kbm_measurements_columns|].
    intros m Hm. simpl in Hm. rewrite <- Hm. apply summary_rows_width.
Qed.

End KbmTable.

(** ** The example instance on tables of repeated lines *)

Section PlainTables.

Local Abbreviation chars := String.list_ascii_of_string.
Local Abbreviation nl := (ascii_of_nat 10).

Lemma chars_app (s1 s2 : string) : chars (s1 +:+ s2) = chars s1 ++ chars s2.
Proof.
  induction s1 as [|c s1 IH]; [done|].
  rewrite string_app_cons. simpl. by rewrite IH.
Qed.

Lemma split_on_line (sep : ascii) (cur cs rest : list ascii) :
  Forall (fun c => Ascii.eqb c sep = false) cs ->
  plain.split_on sep cur (cs ++ sep :: rest)
  = (rev cur ++ cs) :: plain.split_on sep [] rest.
Proof.
  intros Hcs. revert cur. induction Hcs as [|c cs Hc _ IH]; intros cur; simpl.
  - by rewrite Ascii.eqb_refl, app_nil_r.
  - rewrite Hc, IH. simpl. by rewrite <- app_assoc.
Qed.


Lemma nonempty_lines_cons (line text : string) :
  plain.single_line line ->
  plain.nonempty_lines ((line +:+ newline) +:+ text)
  = chars line :: plain.nonempty_lines text.
Proof.
  intros [Hne Hline]. unfold plain.nonempty_lines.
  rewrite !chars_app. unfold newline. simpl chars at 2.
  rewrite <- app_assoc. simpl app at 2.
  rewrite split_on_line by done. simpl.
  destruct line; [done|]. reflexivity.
Qed.

Lemma lines_of_S (line : string) (n : nat) :
  plain.lines_of line (S n) = (line +:+ newline) +:+ plain.lines_of line n.
Proof. unfold plain.lines_of. simpl repeat. by rewrite concat_lines_cons. Qed.

Lemma nonempty_lines_lines_of (line text : string) (n : nat) :
  plain.single_line line ->
  plain.nonempty_lines (plain.lines_of line n +:+ text)
  = repeat (chars line) n ++ plain.nonempty_lines text.
Proof.
  intros Hline. induction n as [|n IH]; [done|].
  rewrite lines_of_S, string_app_assoc, nonempty_lines_cons by done.
  simpl. by rewrite IH.
Qed.

Lemma mapM_repeat {A B} (f : A -> option B) (x : A) (y : B) (n : nat) :
  f x = Some y -> mapM f (repeat x n) = Some (repeat y n).
Proof.
  intros Hf. induction n as [|n IH]; [done|].
  simpl. by rewrite Hf, IH.
Qed.

Lemma forallb_repeat {A} (p : A -> bool) (x : A) (n : nat) :
  p x = true -> forallb p (repeat x n) = true.
Proof. intros Hp. induction n as [|n IH]; simpl; [done|]. by rewrite Hp. Qed.

Lemma map_repeat {A B} (f : A -> B) (x : A) (n : nat) :
  map f (repeat x n) = repeat (f x) n.
Proof. induction n as [|n IH]; simpl; congruence. Qed.

(** A table with a header line and [n] copies of one data line. *)
Lemma parse_with_header (sep : ascii) (header line : string) (n : nat)
      (row : list Z) :
  plain.single_line header -> plain.single_line line ->
  mapM plain.number (plain.split_on sep [] (chars line)) = Some row ->
  length (plain.split_on sep [] (chars header)) = length row ->
  plain.parse sep true (plain.lines_of header 1 +:+ plain.lines_of line n)
  = Some (mkDataFrame (length row) (repeat (map inject_Z row) n)).
Proof.
  intros Hheader Hline Hrow Hcols. unfold plain.parse.
  rewrite nonempty_lines_lines_of by done.
  rewrite <- (string_app_nil_r (plain.lines_of line n)).
  rewrite nonempty_lines_lines_of by done.
  change (plain.nonempty_lines "") with (@nil (list ascii)).
  rewrite app_nil_r. simpl repeat. simpl app. cbv beta iota zeta.
  rewrite (mapM_repeat _ _ row) by done.
  rewrite forallb_repeat by (rewrite Hcols; apply Nat.eqb_refl).
  by rewrite map_repeat, Hcols.
Qed.

(** A table without header of [n >= 1] copies of one line. *)
Lemma parse_without_header (sep : ascii) (line : string) (n : nat)
      (row : list Z) :
  0 < n -> plain.single_line line ->
  mapM plain.number (plain.split_on sep [] (chars line)) = Some row ->
  plain.parse sep false (plain.lines_of line n)
  = Some (mkDataFrame (length row) (repeat (map inject_Z row) n)).
Proof.
  intros Hn Hline Hrow. unfold plain.parse.
  rewrite <- (string_app_nil_r (plain.lines_of line n)).
  rewrite nonempty_lines_lines_of by done.
  change (plain.nonempty_lines "") with (@nil (list ascii)).
  rewrite app_nil_r. destruct n as [|n]; [lia|].
  simpl repeat. cbv beta iota zeta.
  change (chars line :: repeat (chars line) n) with (repeat (chars line) (S n)).
  rewrite (mapM_repeat _ _ row) by done.
  assert (length (plain.split_on sep [] (chars line)) = length row) as Hcols.
  { clear -Hrow. revert row Hrow.
    generalize (plain.split_on sep [] (chars line)).
    induction l as [|x l IH]; intros row Hrow; simpl in Hrow.
    - by injection Hrow as <-.
    - destruct (plain.number x); [|done]. simpl in Hrow.
      destruct (mapM plain.number l) as [ys|]; [|done]. simpl in Hrow.
      injection Hrow as <-. simpl. f_equal. by apply IH. }
  rewrite forallb_repeat by (rewrite Hcols; apply Nat.eqb_refl).
  by rewrite map_repeat, Hcols.
Qed.

End PlainTables.

(** * The properties on the example file systems *)

#[local] Existing Instance plain.io.

Import example.

Lemma parse_kbm_table (rows : Z) :
  plain.parse comma true (kbm_table rows) = Some (kbm_frame rows).
Proof.
  apply (parse_with_header comma "x,y" "1,2" (Z.to_nat rows) [1; 2]%Z).
  - split; [done|repeat constructor].
  - split; [done|repeat constructor].
  - reflexivity.
  - reflexivity.
Qed.

Lemma parse_recording_a (rows : Z) :
  (0 < rows)%Z ->
  plain.parse tab false (recording_a rows) = Some (frame_a rows).
Proof.
  intros Hrows.
  apply (parse_without_header tab (tsv_line ["1"; "2"; "3"; "4"])
           (Z.to_nat rows) [1; 2; 3; 4]%Z).
  - lia.
  - split; [done|repeat constructor].
  - reflexivity.
Qed.

Lemma parse_recording_b (rows : Z) :
  (0 < rows)%Z ->
  plain.parse tab false (recording_b rows) = Some (frame_b rows).
Proof.
  intros Hrows.
  apply (parse_without_header tab (tsv_line ["-5"; "6"; "-7"; "8"])
           (Z.to_nat rows) [-5; 6; -7; 8]%Z).
  - lia.
  - split; [done|repeat constructor].
  - reflexivity.
Qed.

Lemma kbm_frame_len (count : Z) :
  (0 <= count)%Z -> Z.of_nat (pd.len (kbm_frame count)) = count.
Proof.
  intros Hcount. unfold pd.len, kbm_frame. cbn [rows].
  rewrite repeat_length. lia.
Qed.

Lemma kbm_fs_not_dir (n rows : Z) : ~ is_dir (kbm_fs rows) (resampled_path pumpe_v3 n).
Proof.
  intros [entries Hdir]. unfold kbm_fs in Hdir.
  apply lookup_singleton_Some in Hdir as [_ Hdir]. discriminate.
Qed.

Lemma kbm_fs_loads (n rows : Z) :
  n <> 4000%Z ->
  loads (delete (resampled_path pumpe_v3 n) (kbm_fs rows))
        (data_path pumpe_v3 +:+ "_4000.csv") comma true (kbm_frame rows).
Proof.
  intros Hn. exists (kbm_table rows). split; [|apply parse_kbm_table].
  rewrite lookup_delete_ne; [apply lookup_singleton_eq|].
  intros Heq. by apply resampled_path_base in Heq.
Qed.

Lemma bearing_fs_not_dir (names : list string) (n rows : Z) :
  ~ is_dir (bearing_fs names rows) (resampled_path bearings n).
Proof.
  intros [entries Hdir]. unfold bearing_fs in Hdir.
  rewrite lookup_insert_ne in Hdir by exact (data_path_ne bearings n).
  rewrite lookup_insert_ne in Hdir by exact (recording_path_ne bearings "a" n).
  rewrite lookup_insert_ne in Hdir by exact (recording_path_ne bearings "b" n).
  by rewrite lookup_empty in Hdir.
Qed.

Lemma bearing_fs_loads (names : list string) (rows : Z) :
  (0 < rows)%Z ->
  loads (bearing_fs names rows) (data_path bearings +:+ "/" +:+ "a")
        tab false (frame_a rows)
  /\ loads (bearing_fs names rows) (data_path bearings +:+ "/" +:+ "b")
           tab false (frame_b rows).
Proof.
  intros Hrows. unfold bearing_fs. split.
  - exists (recording_a rows). split; [|by apply parse_recording_a].
    rewrite lookup_insert_ne by done. apply lookup_insert_eq.
  - exists (recording_b rows). split; [|by apply parse_recording_b].
    rewrite lookup_insert_ne by done. rewrite lookup_insert_ne by done.
    apply lookup_insert_eq.
Qed.

Lemma kbm_exact_multiple_drops_all_witness :
  kbm_truncate (kbm_frame 12000) 4000 = inr (mkDataFrame 2 [])
  /\ resample_data_kbm pumpe_v3 100 4000 (kbm_fs 12000)
     = (kbm_fs 12000, inl ValueError).
Proof.
  destruct (kbm_exact_multiple_drops_all pumpe_v3 100 4000 (kbm_fs 12000)
              (kbm_frame 12000)) as [Htrunc Hrun].
  - lia.
  - lia.
  - apply kbm_fs_not_dir.
  - apply kbm_fs_loads. lia.
  - rewrite kbm_frame_len by lia. reflexivity.
  - split; [exact Htrunc|]. rewrite Hrun. f_equal.
Defined.

Lemma resample_data_guard_after_delete_witness :
  resample_data pumpe_v3 4000 (kbm_fs 12000) = (∅, inl AssertionError).
Proof.
  rewrite (resample_data_guard_after_delete pumpe_v3 (kbm_fs 12000)
             (kbm_table 12000)).
  - f_equal.
  - reflexivity.
  - apply lookup_singleton_eq.
Defined.

Lemma idempotent_rebuild_witness :
  resample_data bearings 2
    (resample_data bearings 2 (bearing_fs ["a"; "b"] 3)).1
  = resample_data bearings 2 (bearing_fs ["a"; "b"] 3).
Proof.
  apply (idempotent_rebuild bearings 2 (bearing_fs ["a"; "b"] 3)).
  - reflexivity.
  - apply bearing_fs_not_dir.
Defined.

Lemma bearing_fs_dir (names : list string) (rows : Z) :
  bearing_fs names rows !! data_path bearings = Some (Dir names).
Proof. apply lookup_insert_eq. Qed.

(** The same files enumerated in two orders give two different tables. *)
Lemma enumeration_order_changes_output :
  delete "data/bearing" (bearing_fs ["a"; "b"] 3)
  = delete "data/bearing" (bearing_fs ["b"; "a"] 3)
  /\ file_text (resample_data bearings 1 (bearing_fs ["a"; "b"] 3)).1
               "data/bearing_1.csv"
     = "1.0;2.0;3.0;4.0" +:+ newline +:+ "5.0;6.0;7.0;8.0" +:+ newline
  /\ file_text (resample_data bearings 1 (bearing_fs ["b"; "a"] 3)).1
               "data/bearing_1.csv"
     = "5.0;6.0;7.0;8.0" +:+ newline +:+ "1.0;2.0;3.0;4.0" +:+ newline
  /\ file_text (resample_data bearings 1 (bearing_fs ["a"; "b"] 3)).1
               "data/bearing_1.csv"
     <> file_text (resample_data bearings 1 (bearing_fs ["b"; "a"] 3)).1
                  "data/bearing_1.csv".
Proof.
  split; [|split; [|split]].
  - unfold bearing_fs. by rewrite !delete_insert_eq.
  - vm_compute. reflexivity.
  - vm_compute. reflexivity.
  - vm_compute. discriminate.
Qed.

Lemma output_follows_enumeration_witness :
  file_text (resample_data bearings 1 (bearing_fs ["b"; "a"] 3)).1
            (resampled_path bearings 1)
  = String.concat ""
      (recording_lines (frame_b 3) 1 ++ recording_lines (frame_a 3) 1).
Proof.
  destruct (output_follows_enumeration bearings 1 (bearing_fs ["b"; "a"] 3))
    as [_ Horder]; [apply bearing_fs_not_dir|].
  destruct (bearing_fs_loads ["b"; "a"] 3 ltac:(lia)) as [Hla Hlb].
  rewrite (Horder ["b"; "a"] [frame_b 3; frame_a 3]).
  - vm_compute. reflexivity.
  - reflexivity.
  - lia.
  - apply bearing_fs_dir.
  - constructor; [split; [exact Hlb|reflexivity]|].
    constructor; [split; [exact Hla|reflexivity]|]. constructor.
Defined.



(** With the sampling rate 5000 a table of 5001 rows gives one measurement,
    which is a chunk of 5000 rows. *)
Lemma sampling_rate_5000_whole_chunk :
  5000%Z <> 4000%Z
  /\ kbm_measurements (kbm_frame 5001) 5000 = inr [kbm_frame 5000]
  /\ Forall (fun m => Z.of_nat (pd.len m) = 5000%Z) [kbm_frame 5000]
  /\ (resample_data_kbm pumpe_v3 100 5000 (kbm_fs 5001)).2 = inr tt.
Proof.
  split; [lia|]. split; [vm_compute; reflexivity|]. split.
  - constructor; [vm_compute; reflexivity|constructor].
  - vm_compute. reflexivity.
Qed.

Lemma sampling_rate_role_witness :
  kbm_measurements (kbm_frame 8001) 2000
  = inr [kbm_frame 4000; kbm_frame 4000]
  /\ ~ Forall (fun m => Z.of_nat (pd.len m) = 2000%Z)
              [kbm_frame 4000; kbm_frame 4000].
Proof.
  assert (kbm_measurements (kbm_frame 8001) 2000
          = inr [kbm_frame 4000; kbm_frame 4000]) as Hms
    by (vm_compute; reflexivity).
  split; [exact Hms|].
  destruct (sampling_rate_role pumpe_v3 100 2000 (kbm_fs 8001))
    as (_ & _ & Hchunks); [lia|lia|lia|apply kbm_fs_not_dir|].
  destruct (Hchunks _ _ Hms) as (_ & _ & Hnever). apply Hnever. lia.
Defined.

(** The end-to-end example of the KBM strategy: 12500 rows, 100 windows,
    300 rows in the output table. *)
Example kbm_end_to_end :
  (resample_data pumpe_v3 100 (kbm_fs 12500)).2 = inr tt
  /\ file_text (resample_data pumpe_v3 100 (kbm_fs 12500)).1
               "data/kbm_dataset/pumpe_v3_100.csv"
     = plain.lines_of "1.0;2.0" 300.
Proof. split; vm_compute; reflexivity. Qed.

(** Called on its own, the bearing strategy appends to what is there. *)
Example bearing_alone_appends :
  file_text (resample_data_bearing bearings 1
               (resample_data_bearing bearings 1 (bearing_fs ["a"] 3)).1).1
            "data/bearing_1.csv"
  = plain.lines_of "1.0;2.0;3.0;4.0" 2.
Proof. vm_compute. reflexivity. Qed.

(** Called on its own, the KBM strategy checks its guard before it touches
    the file system. *)
Example kbm_alone_guard_first :
  resample_data_kbm pumpe_v3 4000 4000 (kbm_fs 3) = (kbm_fs 3, inl AssertionError).
Proof. apply resample_data_kbm_guard. Qed.

(** A recording of five columns: the bearing strategy reshapes to four
    fields, raises, and writes nothing. *)
Example bearing_five_columns_raises :
  let fs : gmap string node :=
    {[ "data/bearing" := Dir ["c"];
       "data/bearing/c" := File (plain.lines_of (tsv_line ["1"; "2"; "3"; "4"; "5"]) 2) ]} in
  resample_data bearings 1 fs = (fs, inl ValueError).
Proof. vm_compute. reflexivity. Qed.

(** * The further properties on examples *)

#[local] Existing Instance plain_labels.io.

Lemma more_windows_than_rows_witness :
  summary_rows (mkDataFrame 2 [[1; -3]; [-2; 5]]%Q) 4
  = [[Some (1 / 1)%Q; Some (3 / 1)%Q]; [Some (2 / 1)%Q; Some (5 / 1)%Q];
     [None; None]; [None; None]].
Proof.
  destruct (more_windows_than_rows (mkDataFrame 2 [[1; -3]; [-2; 5]]%Q) 4)
    as [_ ->]; [unfold pd.len; simpl; lia|]. reflexivity.
Defined.

Lemma kbm_measurements_outcome_witness :
  kbm_measurements (kbm_frame 3999) 4000 = inl ValueError.
Proof.
  destruct (kbm_measurements_outcome (kbm_frame 3999) 4000) as [_ Hfail];
    [lia|].
  apply Hfail. right. rewrite kbm_frame_len by lia. reflexivity.
Defined.

Lemma bearing_empty_directory_witness :
  resample_data bearings 10 {[ "data/bearing" := Dir [] ]}
  = ({[ "data/bearing" := Dir [] ]}, inr tt).
Proof.
  destruct (bearing_empty_directory bearings 10 {[ "data/bearing" := Dir [] ]})
    as [-> _].
  - reflexivity.
  - intros [entries Hdir]. vm_compute in Hdir. discriminate.
  - apply lookup_singleton_eq.
  - f_equal.
Defined.

Lemma nonpositive_window_count_witness :
  resample_data bearings 0 (bearing_fs ["a"; "b"] 3)
  = (delete (resampled_path bearings 0) (bearing_fs ["a"; "b"] 3),
     inl ValueError).
Proof.
  destruct (nonpositive_window_count bearings 0 (bearing_fs ["a"; "b"] 3))
    as [Hbearing _]; [lia|apply bearing_fs_not_dir|].
  apply (Hbearing "a" ["b"] (frame_a 3)).
  - reflexivity.
  - apply bearing_fs_dir.
  - by apply bearing_fs_loads.
Defined.

Lemma kbm_failure_leaves_no_table_witness :
  (resample_data pumpe_v3 100 ∅).1 = delete (resampled_path pumpe_v3 100) ∅.
Proof.
  apply (kbm_failure_leaves_no_table pumpe_v3 100 ∅ OSError).
  - reflexivity.
  - intros [entries Hdir]. by rewrite lookup_empty in Hdir.
  - vm_compute. reflexivity.
Defined.

Lemma bearing_failure_keeps_earlier_rows_witness :
  exists e,
    resample_data bearings 1 (bearing_fs ["a"; "missing"; "b"] 3)
    = (append_lines (resampled_path bearings 1) (table_lines [frame_a 3] 1)
         (delete (resampled_path bearings 1)
                 (bearing_fs ["a"; "missing"; "b"] 3)), inl e).
Proof.
  apply (bearing_failure_keeps_earlier_rows bearings 1
           (bearing_fs ["a"; "missing"; "b"] 3) ["a"] "missing" ["b"]
           [frame_a 3]).
  - reflexivity.
  - lia.
  - apply bearing_fs_not_dir.
  - apply bearing_fs_dir.
  - constructor; [|constructor]. split; [|reflexivity].
    by apply bearing_fs_loads.
  - intros df (text & Hfile & _). vm_compute in Hfile. discriminate.
Defined.

Lemma resample_data_changes_only_its_table_witness :
  (resample_data bearings 2 (bearing_fs ["a"; "b"] 3)).1 !! "data/bearing/a"
  = Some (File (recording_a 3)).
Proof.
  rewrite (resample_data_changes_only_its_table bearings 2
             (bearing_fs ["a"; "b"] 3) "data/bearing/a").
  - reflexivity.
  - exact (recording_path_ne bearings "a" 2).
Defined.


Lemma resample_default_kbm_tables_witness :
  (resample_default pumpe_v3 (kbm_fs 8001)).2 = inr tt
  /\ file_text (resample_default pumpe_v3 (kbm_fs 8001)).1
               (resampled_path pumpe_v3 1000)
     = String.concat "" (table_lines [kbm_frame 4000; kbm_frame 4000] 1000).
Proof.
  destruct (resample_default_kbm_tables pumpe_v3 (kbm_fs 8001)
              (kbm_frame 8001) [kbm_frame 4000; kbm_frame 4000])
    as [Hok Htables].
  - reflexivity.
  - intros n _. apply kbm_fs_not_dir.
  - exists (kbm_table 8001). split; [apply lookup_singleton_eq|].
    apply parse_kbm_table.
  - vm_compute. reflexivity.
  - reflexivity.
  - split; [exact Hok|]. apply Htables. simpl. lia.
Defined.

Lemma bearing_table_line_count_witness :
  count_char (ascii_of_nat 10)
    (file_text (@resample_data plain_fixed_io bearings 10
                  (bearing_fs ["a"; "b"] 20480)).1
               (resampled_path bearings 10))
  = 20.
Proof.
  destruct (bearing_fs_loads ["a"; "b"] 20480 ltac:(lia)) as [Hla Hlb].
  destruct (@bearing_table_line_count plain_fixed_io bearings 10
              (bearing_fs ["a"; "b"] 20480) ["a"; "b"]
              [frame_a 20480; frame_b 20480]) as [-> _].
  - reflexivity.
  - reflexivity.
  - reflexivity.
  - lia.
  - apply bearing_fs_not_dir.
  - apply bearing_fs_dir.
  - constructor; [split; [exact Hla|reflexivity]|].
    constructor; [split; [exact Hlb|reflexivity]|]. constructor.
  - reflexivity.
Defined.


Lemma add_label_missing_key_witness :
  cleaner.add_label_kbm plain_labels.stabilus false plain_labels.stabilus_fs
  = ((cleaner.label_file plain_labels.stabilus false "stabilus"
        plain_labels.stabilus_fs).1, inl cleaner.KeyError).
Proof.
  rewrite (add_label_missing_key plain_labels.stabilus false ["stabilus"]
             "piaggio" [] plain_labels.stabilus_fs
             ("2019-06-17 10:22:00.7" +:+ newline)
             [cleaner.mkRow "2019-06-17 10:22:00.7" 0 [cleaner.VNum (1 # 2)]]).
  - vm_compute. reflexivity.
  - reflexivity.
  - vm_compute. reflexivity.
  - vm_compute. reflexivity.
  - vm_compute. reflexivity.
  - vm_compute. reflexivity.
Defined.

Lemma add_label_writes_only_labelled_witness :
  (cleaner.add_label_kbm plain_labels.stabilus false
     plain_labels.stabilus_fs).1 !! "data/kbm_dataset/stabilus"
  = plain_labels.stabilus_fs !! "data/kbm_dataset/stabilus".
Proof.
  apply add_label_writes_only_labelled.
  intros name Hname. simpl in Hname.
  destruct Hname as [<-|[<-|[]]]; discriminate.
Defined.

(** The end-to-end example of the KBM strategy, 12500 rows: three
    measurements. *)
Lemma kbm_table_rows_witness :
  exists ms,
    kbm_measurements (kbm_frame 12500) 4000 = inr ms
    /\ Z.of_nat (length ms) = 3%Z
    /\ (resample_data pumpe_v3 100 (kbm_fs 12500)).2 = inr tt.
Proof.
  destruct (kbm_table_rows pumpe_v3 100 (kbm_fs 12500) (kbm_frame 12500))
    as (ms & Hms & Hlen & _ & _ & Hrest).
  - reflexivity.
  - lia.
  - lia.
  - apply kbm_fs_not_dir.
  - exists (kbm_table 12500). split; [apply lookup_singleton_eq|].
    apply parse_kbm_table.
  - rewrite kbm_frame_len by lia. discriminate.
  - rewrite kbm_frame_len by lia. lia.
  - reflexivity.
  - simpl. lia.
  - cbv zeta in Hrest. destruct Hrest as (Hrun & _).
    exists ms. split; [exact Hms|]. split.
    + rewrite Hlen, kbm_frame_len by lia. reflexivity.
    + by rewrite Hrun.
Defined.
